(** * go-complete-resource: bank, note and user snippets

    A shallow embedding of the teaching programs of the repository:
    the "Go Bank" command-line programs (an account balance held in a
    [float64], optionally persisted to [balance.txt]), the [note]
    package (validating constructor, [Display], [Save] to a JSON file)
    and the [user] package ([User], [Admin] with an embedded [User]).

    Numbers are IEEE-754 binary64 values (Rocq's primitive floats), so
    that [<=], [>], [+=] and [-=] behave on NaN and infinities as they
    do in Go.  Console output and files live in an explicit [world]
    that every operation threads through. *)

From Stdlib Require Import ZArith Lia Floats Ascii String.
From stdpp Require Import base option list strings pretty gmap.

Local Open Scope Z_scope.

(** ** float64 *)

Module Float64.

Local Open Scope float_scope.

(** Go's [a > b] on float64: false as soon as one side is NaN. *)
Definition gtb (a b : float) : bool := b <? a.

(** "not negative": the comparison [b < 0] is false (so [b] is [>= 0] or NaN). *)
Definition not_negative (b : float) : Prop := (b <? 0) = false.

(** [0 <= b] as a float comparison (false on NaN). *)
Definition nonneg (b : float) : Prop := (0 <=? b) = true.

(** Neither NaN nor an infinity. *)
Definition finite (x : float) : bool :=
  match Prim2SF x with
  | S754_zero _ | S754_finite _ _ _ => true
  | _ => false
  end.

End Float64.

(** The same notions on the binary64 specification ([SpecFloat]). *)

(** A specification-level float that does not compare below zero. *)
Definition sf_not_negative (x : spec_float) : bool :=
  match x with
  | S754_infinity true | S754_finite true _ _ => false
  | _ => true
  end.

(** "zero or above": not NaN and not below zero. *)
Definition sf_nonneg (x : spec_float) : bool :=
  match x with
  | S754_zero _ | S754_infinity false | S754_finite false _ _ => true
  | _ => false
  end.

(** "strictly above zero, or NaN": what passes the guard [x <= 0]. *)
Definition sf_passes_positive (x : spec_float) : bool :=
  match x with
  | S754_nan | S754_infinity false | S754_finite false _ _ => true
  | _ => false
  end.

(** ** The Go runtime the snippets call into *)

(** Go [error] values that occur in the snippets ([nil] is [None]). *)
Inductive error : Type :=
| errors_New (text : string)   (* errors.New(text) *)
| ErrSyntax                    (* strconv: the text is not a number *)
| ErrRange                     (* strconv: a well-formed number out of range *)
| ErrNotExist                  (* os: the file does not exist *)
| PathError (op path text : string).
                               (* os: [*PathError], as in
                                  open a/b.json: no such file or directory *)

(** [time.Time]: an instant, counted in nanoseconds from the zero time
    (January 1, year 1, 00:00:00 UTC), so that the zero value of the
    type is [0]. *)
Definition Time : Type := Z.

(** Library functions whose code is not part of the repository: number
    formatting and parsing, Unicode case mapping and the JSON encoders of
    [string] and [time.Time].  The laws are the documented behaviour of
    [strconv.ParseFloat] on failure. *)
Class GoRuntime : Type := {
  (** [fmt.Sprint(f)] for a float64, also the [%v] form used by [fmt.Println]. *)
  Sprint : float -> string;
  (** [strconv.ParseFloat(s, 64)]. *)
  ParseFloat : string -> float * option error;
  (** [strings.Map(unicode.ToLower, s)], the path of [strings.ToLower]
      for text that is not pure ASCII. *)
  unicode_ToLower : string -> string;
  (** [encoding/json]: a Go string as a JSON string literal. *)
  json_string : string -> string;
  (** [time.Time.MarshalJSON]. *)
  Time_MarshalJSON : Time -> string + error;
  ParseFloat_errors : forall s f e,
    ParseFloat s = (f, Some e) ->
    (e = ErrSyntax /\ f = 0%float) \/
    (e = ErrRange /\ (f = infinity \/ f = neg_infinity));
  ParseFloat_empty : ParseFloat "" = (0%float, Some ErrSyntax);
}.

(** ** Console and files *)

(** How the file system answers [os.WriteFile(name, data, 0644)], which
    opens the file (creating or truncating it), writes the data and
    closes the file. *)
Inductive write_outcome : Type :=
| WriteOk                             (* the three steps succeed *)
| OpenFails (e : error)               (* the file cannot be opened: nothing changes *)
| WriteFails (e : error) (n : nat).   (* opened and truncated, but only the
                                         first [n] bytes reached the file *)

Record world : Type := {
  stdout : list string;          (* the texts printed so far, oldest first *)
  files : gmap string string;    (* file name to contents *)
  clock : Time;                  (* what [time.Now()] reads *)
  disk : string -> string -> write_outcome;
                                 (* what the file system does with a write
                                    of some data to some name *)
}.

Definition IO (A : Type) : Type := world -> A * world.

#[global] Instance IO_ret : MRet IO := fun A x w => (x, w).
#[global] Instance IO_bind : MBind IO :=
  fun A B f m w => let '(x, w') := m w in f x w'.

Definition newline : string := String "010"%char "".

Definition Print (s : string) : IO unit :=
  fun w => (tt, {| stdout := stdout w ++ [s]; files := files w; clock := clock w;
                   disk := disk w |}).

Definition Println (s : string) : IO unit := Print (s +:+ newline).

(** [os.ReadFile]: the contents, or an error when the file does not exist. *)
Definition os_ReadFile (name : string) : IO (string * option error) :=
  fun w => match files w !! name with
           | Some data => ((data, None), w)
           | None => ((""%string, Some ErrNotExist), w)
           end.

(** The world once [name] holds [data]. *)
Definition store (name data : string) (w : world) : world :=
  {| stdout := stdout w; files := <[name := data]> (files w); clock := clock w;
     disk := disk w |}.

(** [os.WriteFile]: creates or overwrites the file, and returns the
    error of the step that failed. *)
Definition os_WriteFile (name data : string) : IO (option error) :=
  fun w => match disk w name data with
           | WriteOk => (None, store name data w)
           | OpenFails e => (Some e, w)
           | WriteFails e n => (Some e, store name (substring 0 n data) w)
           end.

(** [time.Now()]. *)
Definition time_Now : IO Time := fun w => (clock w, w).

(** *** A sample runtime

    An instance of the interface for running the programs on concrete
    inputs.  On the numbers and texts listed here it answers as Go does
    ([fmt.Sprint(1250.5)] is [1250.5], [strconv.ParseFloat] of [1e400]
    is [+Inf] with a range error, the zero time marshals to
    [0001-01-01T00:00:00Z], ...); every other text is taken as a syntax
    error and every other instant is refused. *)

Definition sample_floats : list (string * float) :=
  [("0", 0); ("250", 250); ("750", 750); ("1000", 1000); ("1250", 1250);
   ("1250.5", 1250.5); ("-5", -5); ("-1000", -1000);
   ("NaN", nan); ("+Inf", infinity); ("-Inf", neg_infinity)]%float.

Definition sample_Sprint (f : float) : string :=
  match find (fun p => PrimFloat.Leibniz.eqb p.2 f) sample_floats with
  | Some p => p.1
  | None => "?"
  end.

Definition sample_ParseFloat (s : string) : float * option error :=
  match find (fun p => String.eqb p.1 s) sample_floats with
  | Some p => (p.2, None)
  | None =>
      if String.eqb s "1e400" then (infinity, Some ErrRange)
      else (0%float, Some ErrSyntax)
  end.

Definition quote : string := String "034"%char "".

Definition sample_times : list (Time * string) :=
  [(0, "0001-01-01T00:00:00Z"); (1000000000, "0001-01-01T00:00:01Z")].

Definition sample_Time_MarshalJSON (t : Time) : string + error :=
  match find (fun p => (p.1 =? t)%Z) sample_times with
  | Some p => inl (quote +:+ p.2 +:+ quote)
  | None => inr (errors_New "Time.MarshalJSON: year outside of range [0,9999]")
  end.

(** The byte 0xFF, which occurs in no UTF-8 text, and the UTF-8 bytes
    of U+FFFD, the replacement character. *)
Definition byteFF : string := String "255" "".

Definition replacementChar : string := String "239" (String "191" (String "189" "")).

(** [encoding/json] writes safe ASCII text between double quotes as it
    is, and a byte that is not UTF-8 as the escape of U+FFFD. *)
Definition sample_json_string (s : string) : string :=
  if String.eqb s byteFF then quote +:+ "\ufffd" +:+ quote
  else quote +:+ s +:+ quote.

#[local, refine] Instance sample_runtime : GoRuntime := {|
  Sprint := sample_Sprint;
  ParseFloat := sample_ParseFloat;
  unicode_ToLower := fun s => s;
  json_string := sample_json_string;
  Time_MarshalJSON := sample_Time_MarshalJSON;
|}.
Proof.
  - intros s f e. unfold sample_ParseFloat.
    destruct (find _ sample_floats) as [p |]; [discriminate |].
    destruct (String.eqb s "1e400"); intros [= <- <-]; auto.
  - reflexivity.
Defined.

(** A file system that accepts every write, and one without
    directories: a name with a slash in it cannot be opened. *)
Definition accepting : string -> string -> write_outcome := fun _ _ => WriteOk.

Fixpoint hasSlash (name : string) : bool :=
  match name with
  | EmptyString => false
  | String c name' => Ascii.eqb c "/" || hasSlash name'
  end.

Definition flat : string -> string -> write_outcome :=
  fun name _ =>
    if hasSlash name then OpenFails (PathError "open" name "no such file or directory")
    else WriteOk.

Definition empty_world : world :=
  {| stdout := []; files := ∅; clock := 0; disk := accepting |}.

Definition flat_world : world :=
  {| stdout := []; files := ∅; clock := 0; disk := flat |}.

(** ** The Go Bank programs *)

Module Bank.

Local Open Scope float_scope.

(** What the [fmt.Scan] calls of one pass through the menu store:
    [choice] (an int) and, for a deposit or a withdrawal, the amount
    (a float64; [fmt.Scan] also accepts the tokens NaN and Inf).  A
    failed scan leaves the zero value. *)
Record round : Type := { choice : Z; amount : float }.

(** Standard input is exhausted: every scan fails. *)
Definition eof : round := {| choice := 0; amount := 0 |}.

(** How a pass through the loop body ends. *)
Inductive control : Type := Continue | Break | Return.

(** [for { body }] over the rounds typed by the user.  Once the input
    is exhausted the body runs on [eof]. *)
Fixpoint forever (body : round -> float -> IO (control * float))
    (rs : list round) (accountBalance : float) : IO (control * float) :=
  match rs with
  | [] => body eof accountBalance
  | r :: rs' =>
      '(c, accountBalance) ← body r accountBalance;
      match c with
      | Continue => forever body rs' accountBalance
      | _ => mret (c, accountBalance)
      end
  end.

(** [for i := 0; i < n; i++ { body }]. *)
Fixpoint times (n : nat) (body : round -> float -> IO (control * float))
    (rs : list round) (accountBalance : float) : IO (control * float) :=
  match n with
  | O => mret (Continue, accountBalance)
  | S n' =>
      '(c, accountBalance) ← body (hd eof rs) accountBalance;
      match c with
      | Continue => times n' body (tl rs) accountBalance
      | _ => mret (c, accountBalance)
      end
  end.

Definition accountBalanceFile : string := "balance.txt".

Section Programs.

Context `{rt : GoRuntime}.

(** [fmt.Println(text, x)] with a float64 operand. *)
Definition Println_float (text : string) (x : float) : IO unit :=
  Println (text +:+ " " +:+ Sprint x).

Definition presentOptions : IO unit :=
  Println "What do you want to do?" ;;
  Println "1. Check balance" ;;
  Println "2. Deposit money" ;;
  Println "3. Withdraw money" ;;
  Println "4. Exit".

Definition writeBalanceToFile (balance : float) : IO unit :=
  let balanceText := Sprint balance in
  os_WriteFile accountBalanceFile balanceText ;; mret tt.

(** part_003: both errors are discarded. *)
Definition getBalanceFromFile_ignoring : IO float :=
  '(data, _) ← os_ReadFile accountBalanceFile;
  let balanceText := data in
  let '(balance, _) := ParseFloat balanceText in
  mret balance.

(** part_008. *)
Definition getBalanceFromFile : IO (float * option error) :=
  '(data, err) ← os_ReadFile accountBalanceFile;
  match err with
  | Some _ => mret (1000, Some (errors_New "Failed to find balance file."))
  | None =>
      let balanceText := data in
      let '(balance, err) := ParseFloat balanceText in
      match err with
      | Some _ => mret (1000, Some (errors_New "Failed to parse stored balance value."))
      | None => mret (balance, None)
      end
  end.

(** [err.Error()] as [fmt.Println(err)] shows it. *)
Definition Error (e : error) : string :=
  match e with
  | errors_New text => text
  | ErrSyntax => "invalid syntax"
  | ErrRange => "value out of range"
  | ErrNotExist => "file does not exist"
  | PathError op path text => op +:+ " " +:+ path +:+ ": " +:+ text
  end.

(** *** part_005: one pass, the deposit is added unchecked *)

Definition part005_main (rs : list round) : IO float :=
  let r := hd eof rs in
  let accountBalance := 1000 in
  Println "Welcome to Go Bank!" ;;
  presentOptions ;;
  Print "Your choice: " ;;
  let choice := choice r in
  accountBalance ←
    (if (choice =? 1)%Z then
       Println_float "Your balance is" accountBalance ;; mret accountBalance
     else if (choice =? 2)%Z then
       Print "Your deposit: " ;;
       let depositAmount := amount r in
       let accountBalance := accountBalance + depositAmount in
       Println_float "Balance updated! New amount:" accountBalance ;;
       mret accountBalance
     else mret accountBalance);
  Println ("Your choice: " +:+ pretty choice) ;;
  mret accountBalance.

(** *** 18-nested-if and part_006: if/else chain, a rejected amount ends the program *)

Definition nested_if_body (r : round) (accountBalance : float) : IO (control * float) :=
  presentOptions ;;
  Print "Your choice: " ;;
  let choice := choice r in
  if (choice =? 1)%Z then
    Println_float "Your balance is" accountBalance ;;
    mret (Continue, accountBalance)
  else if (choice =? 2)%Z then
    Print "Your deposit: " ;;
    let depositAmount := amount r in
    if depositAmount <=? 0 then
      Println "Invalid amount. Must be greater than 0." ;;
      mret (Return, accountBalance)
    else
      let accountBalance := accountBalance + depositAmount in
      Println_float "Balance updated! New amount:" accountBalance ;;
      mret (Continue, accountBalance)
  else if (choice =? 3)%Z then
    Print "Withdrawal amount: " ;;
    let withdrawalAmount := amount r in
    if withdrawalAmount <=? 0 then
      Println "Invalid amount. Must be greater than 0." ;;
      mret (Return, accountBalance)
    else if Float64.gtb withdrawalAmount accountBalance then
      Println "Invalid amount. You can't withdraw more than you have." ;;
      mret (Return, accountBalance)
    else
      let accountBalance := accountBalance - withdrawalAmount in
      Println_float "Balance updated! New amount:" accountBalance ;;
      mret (Continue, accountBalance)
  else
    Println "Goodbye!" ;;
    mret (Continue, accountBalance).

Definition nested_if_main (rs : list round) : IO float :=
  let accountBalance := 1000 in
  Println "Welcome to Go Bank!" ;;
  '(_, accountBalance) ← nested_if_body (hd eof rs) accountBalance;
  mret accountBalance.

(** part_006 prints the welcome line inside its 200-pass loop. *)
Definition part006_main (rs : list round) : IO float :=
  let accountBalance := 1000 in
  '(_, accountBalance) ←
    times 200 (fun r b => Println "Welcome to Go Bank!" ;; nested_if_body r b)
      rs accountBalance;
  mret accountBalance.

(** *** 20-infinite-loop-break-continue *)

Definition infinite_loop_body (r : round) (accountBalance : float) : IO (control * float) :=
  presentOptions ;;
  Print "Your choice: " ;;
  let choice := choice r in
  if (choice =? 1)%Z then
    Println_float "Your balance is" accountBalance ;;
    mret (Continue, accountBalance)
  else if (choice =? 2)%Z then
    Print "Your deposit: " ;;
    let depositAmount := amount r in
    if depositAmount <=? 0 then
      Println "Invalid amount. Must be greater than 0." ;;
      mret (Continue, accountBalance)
    else
      let accountBalance := accountBalance + depositAmount in
      Println_float "Balance updated! New amount:" accountBalance ;;
      mret (Continue, accountBalance)
  else if (choice =? 3)%Z then
    Print "Withdrawal amount: " ;;
    let withdrawalAmount := amount r in
    if withdrawalAmount <=? 0 then
      Println "Invalid amount. Must be greater than 0." ;;
      mret (Return, accountBalance)
    else if Float64.gtb withdrawalAmount accountBalance then
      Println "Invalid amount. You can't withdraw more than you have." ;;
      mret (Return, accountBalance)
    else
      let accountBalance := accountBalance - withdrawalAmount in
      Println_float "Balance updated! New amount:" accountBalance ;;
      mret (Continue, accountBalance)
  else
    Println "Goodbye!" ;;
    mret (Break, accountBalance).

Definition infinite_loop_main (rs : list round) : IO float :=
  let accountBalance := 1000 in
  Println "Welcome to Go Bank!" ;;
  '(c, accountBalance) ← forever infinite_loop_body rs accountBalance;
  match c with
  | Return => mret accountBalance
  | _ => Println "Thanks for choosing our bank" ;; mret accountBalance
  end.

(** *** part_007: switch, a rejected amount shows the menu again *)

Definition switch_body (r : round) (accountBalance : float) : IO (control * float) :=
  presentOptions ;;
  Print "Your choice: " ;;
  match choice r with
  | 1%Z =>
      Println_float "Your balance is" accountBalance ;;
      mret (Continue, accountBalance)
  | 2%Z =>
      Print "Your deposit: " ;;
      let depositAmount := amount r in
      if depositAmount <=? 0 then
        Println "Invalid amount. Must be greater than 0." ;;
        mret (Continue, accountBalance)
      else
        let accountBalance := accountBalance + depositAmount in
        Println_float "Balance updated! New amount:" accountBalance ;;
        mret (Continue, accountBalance)
  | 3%Z =>
      Print "Withdrawal amount: " ;;
      let withdrawalAmount := amount r in
      if withdrawalAmount <=? 0 then
        Println "Invalid amount. Must be greater than 0." ;;
        mret (Continue, accountBalance)
      else if Float64.gtb withdrawalAmount accountBalance then
        Println "Invalid amount. You can't withdraw more than you have." ;;
        mret (Continue, accountBalance)
      else
        let accountBalance := accountBalance - withdrawalAmount in
        Println_float "Balance updated! New amount:" accountBalance ;;
        mret (Continue, accountBalance)
  | _ =>
      Println "Goodbye!" ;;
      Println "Thanks for choosing our bank" ;;
      mret (Return, accountBalance)
  end.

Definition part007_main (rs : list round) : IO float :=
  let accountBalance := 1000 in
  Println "Welcome to Go Bank!" ;;
  '(_, accountBalance) ← forever switch_body rs accountBalance;
  mret accountBalance.

(** *** 22-writing-to-files, part_003 and part_008: every accepted
    amount is followed by [writeBalanceToFile] *)

Definition writing_body (r : round) (accountBalance : float) : IO (control * float) :=
  presentOptions ;;
  Print "Your choice: " ;;
  match choice r with
  | 1%Z =>
      Println_float "Your balance is" accountBalance ;;
      mret (Continue, accountBalance)
  | 2%Z =>
      Print "Your deposit: " ;;
      let depositAmount := amount r in
      if depositAmount <=? 0 then
        Println "Invalid amount. Must be greater than 0." ;;
        mret (Continue, accountBalance)
      else
        let accountBalance := accountBalance + depositAmount in
        Println_float "Balance updated! New amount:" accountBalance ;;
        writeBalanceToFile accountBalance ;;
        mret (Continue, accountBalance)
  | 3%Z =>
      Print "Withdrawal amount: " ;;
      let withdrawalAmount := amount r in
      if withdrawalAmount <=? 0 then
        Println "Invalid amount. Must be greater than 0." ;;
        mret (Continue, accountBalance)
      else if Float64.gtb withdrawalAmount accountBalance then
        Println "Invalid amount. You can't withdraw more than you have." ;;
        mret (Continue, accountBalance)
      else
        let accountBalance := accountBalance - withdrawalAmount in
        Println_float "Balance updated! New amount:" accountBalance ;;
        writeBalanceToFile accountBalance ;;
        mret (Continue, accountBalance)
  | _ =>
      Println "Goodbye!" ;;
      Println "Thanks for choosing our bank" ;;
      mret (Return, accountBalance)
  end.

(** 22-writing-to-files/bank.go: the balance always starts at 1000. *)
Definition writing_main (rs : list round) : IO float :=
  let accountBalance := 1000 in
  Println "Welcome to Go Bank!" ;;
  '(_, accountBalance) ← forever writing_body rs accountBalance;
  mret accountBalance.

Definition part003_main (rs : list round) : IO float :=
  accountBalance ← getBalanceFromFile_ignoring;
  Println "Welcome to Go Bank!" ;;
  '(_, accountBalance) ← forever writing_body rs accountBalance;
  mret accountBalance.

Definition part008_main (rs : list round) : IO float :=
  '(accountBalance, err) ← getBalanceFromFile;
  match err with
  | Some e =>
      Println "ERROR" ;;
      Println (Error e) ;;
      Println "---------"
  | None => mret tt
  end ;;
  Println "Welcome to Go Bank!" ;;
  '(_, accountBalance) ← forever writing_body rs accountBalance;
  mret accountBalance.

(** *** The programs, by source file *)

Inductive program : Type :=
| Part005            (* unnamed/part_005 *)
| NestedIf           (* 02-go-essentials/18-nested-if/bank.go *)
| Part006            (* unnamed/part_006 *)
| InfiniteLoop       (* 02-go-essentials/20-infinite-loop-break-continue/bank.go *)
| Part007            (* unnamed/part_007 *)
| WritingToFiles     (* 02-go-essentials/22-writing-to-files/bank.go *)
| Part003            (* unnamed/part_003 *)
| Part008.           (* unnamed/part_008 *)

(** Runs [main] on the typed rounds; the result is the final value
    of the local variable [accountBalance]. *)
Definition main (p : program) : list round -> IO float :=
  match p with
  | Part005 => part005_main
  | NestedIf => nested_if_main
  | Part006 => part006_main
  | InfiniteLoop => infinite_loop_main
  | Part007 => part007_main
  | WritingToFiles => writing_main
  | Part003 => part003_main
  | Part008 => part008_main
  end.

(** The value [accountBalance] is initialised with. *)
Definition initialBalance (p : program) (w : world) : float :=
  match p with
  | Part003 => (getBalanceFromFile_ignoring w).1
  | Part008 => (getBalanceFromFile w).1.1
  | _ => 1000
  end.

(** Does the program check the amounts it reads? *)
Definition validates (p : program) : bool :=
  match p with Part005 => false | _ => true end.

(** *** Vocabulary of the properties *)

Definition body_type : Type := round -> float -> IO (control * float).

(** An invariant on the balance and the world. *)
Definition invariant : Type := float -> world -> Prop.

(** [body] keeps [I], for every round that satisfies [P]. *)
Definition preserves (P : round -> Prop) (I : invariant) (body : body_type) : Prop :=
  forall r b w, P r -> I b w -> I (body r b w).1.2 (body r b w).2.

(** Printing does not disturb [I]. *)
Definition print_stable (I : invariant) : Prop :=
  forall b s w, I b w -> I b (Print s w).2.

Definition any_round (r : round) : Prop := True.

Definition finite_round (r : round) : Prop := Float64.finite (amount r) = true.

(** The invariants of the balance alone. *)
Definition never_negative : invariant := fun b _ => Float64.not_negative b.

Definition never_below_zero : invariant := fun b _ => Float64.nonneg b.

(** The file system accepts every write to [balance.txt]. *)
Definition writable (w : world) : Prop :=
  forall data, disk w accountBalanceFile data = WriteOk.

(** On such a file system, [balance.txt] is as it was found ([orig]) or
    holds the text of the current balance. *)
Definition file_tracks (orig : option string) : invariant :=
  fun b w => writable w /\
             (files w !! accountBalanceFile = orig \/
              files w !! accountBalanceFile = Some (Sprint b)).

(** The loop body of each program that checks its amounts. *)
Definition bodyOf (p : program) : option body_type :=
  match p with
  | Part005 => None
  | NestedIf | Part006 => Some nested_if_body
  | InfiniteLoop => Some infinite_loop_body
  | Part007 => Some switch_body
  | WritingToFiles | Part003 | Part008 => Some writing_body
  end.

(** The amount typed in round [r] is refused: a deposit [<= 0], a
    withdrawal [<= 0] or above the current balance. *)
Definition rejects (b : float) (r : round) : bool :=
  match choice r with
  | 2%Z => amount r <=? 0
  | 3%Z => (amount r <=? 0) || Float64.gtb (amount r) b
  | _ => false
  end.

(** The round is a deposit or a withdrawal that is not refused. *)
Definition accepts (b : float) (r : round) : bool :=
  match choice r with
  | 2%Z | 3%Z => negb (rejects b r)
  | _ => false
  end.

Definition newBalance (b : float) (r : round) : float :=
  match choice r with
  | 2%Z => b + amount r
  | 3%Z => b - amount r
  | _ => b
  end.

(** What a deposit or withdrawal round prints before it decides. *)
Definition shown (r : round) : list string :=
  [ "What do you want to do?" +:+ newline;
    "1. Check balance" +:+ newline;
    "2. Deposit money" +:+ newline;
    "3. Withdraw money" +:+ newline;
    "4. Exit" +:+ newline;
    "Your choice: ";
    match choice r with 2%Z => "Your deposit: " | _ => "Withdrawal amount: " end ].

Definition rejectionLine (r : round) : string :=
  (if amount r <=? 0 then "Invalid amount. Must be greater than 0."
   else "Invalid amount. You can't withdraw more than you have.") +:+ newline.

Definition updatedLine (b : float) : string :=
  "Balance updated! New amount:" +:+ " " +:+ Sprint b +:+ newline.

Definition findError : error := errors_New "Failed to find balance file.".

Definition parseError : error := errors_New "Failed to parse stored balance value.".

(** What part_008 does once [getBalanceFromFile] has returned [balance]
    and a non-nil [err]. *)
Definition continues_after (e : error) (balance : float) (rs : list round) : IO float :=
  Println "ERROR" ;;
  Println (Error e) ;;
  Println "---------" ;;
  Println "Welcome to Go Bank!" ;;
  '(_, accountBalance) ← forever writing_body rs balance;
  mret accountBalance.

End Programs.

End Bank.

(** ** A bank session as a fold *)

Module BankSession.

Import Bank.
Local Open Scope float_scope.

(** The round picks one of the three menu entries that keep the program going. *)
Definition menuChoice (r : round) : bool :=
  match choice r with
  | 1%Z | 2%Z | 3%Z => true
  | _ => false
  end.

(** The balance after one round: changed by an accepted amount only. *)
Definition applyRound (b : float) (r : round) : float :=
  if accepts b r then newBalance b r else b.

(** The rounds up to the first one that leaves the menu. *)
Fixpoint session (rs : list round) : list round :=
  match rs with
  | [] => []
  | r :: rs' => if menuChoice r then r :: session rs' else []
  end.

(** How each checking program reacts to a refused amount. *)
Definition onRefusal (p : program) (r : round) : control :=
  match p with
  | NestedIf | Part006 => Return
  | InfiniteLoop => match choice r with 2%Z => Continue | _ => Return end
  | _ => Continue
  end.

(** The programs whose loop is [for { ... }]. *)
Definition loopsForever (p : program) : bool :=
  match p with
  | InfiniteLoop | Part007 | WritingToFiles | Part003 | Part008 => true
  | _ => false
  end.

(** The programs built on a [switch]: only leaving the menu ends them. *)
Definition switches (p : program) : bool :=
  match p with
  | Part007 | WritingToFiles | Part003 | Part008 => true
  | _ => false
  end.

(** The programs that read [balance.txt] when they start. *)
Definition readsFile (p : program) : bool :=
  match p with
  | Part003 | Part008 => true
  | _ => false
  end.

(** The programs that call [writeBalanceToFile]. *)
Definition writesFile (p : program) : bool :=
  match p with
  | WritingToFiles | Part003 | Part008 => true
  | _ => false
  end.

(** What a checking program does when the choice is none of 1, 2, 3. *)
Definition onLeave (p : program) : control :=
  match p with
  | NestedIf | Part006 => Continue
  | InfiniteLoop => Break
  | _ => Return
  end.

(** How one pass of the loop body ends. *)
Definition controlOf (p : program) (r : round) (b : float) : control :=
  if menuChoice r then (if rejects b r then onRefusal p r else Continue)
  else onLeave p.

Definition menuLines : list string :=
  [ "What do you want to do?" +:+ newline;
    "1. Check balance" +:+ newline;
    "2. Deposit money" +:+ newline;
    "3. Withdraw money" +:+ newline;
    "4. Exit" +:+ newline;
    "Your choice: " ].

Definition goodbye (p : program) : list string :=
  match p with
  | NestedIf | Part006 | InfiniteLoop => [ "Goodbye!" +:+ newline ]
  | _ => [ "Goodbye!" +:+ newline; "Thanks for choosing our bank" +:+ newline ]
  end.

Section Transcript.

Context `{rt : GoRuntime}.

(** Everything one pass of the loop body prints. *)
Definition printedBy (p : program) (r : round) (b : float) : list string :=
  match choice r with
  | 1%Z => menuLines ++ [ "Your balance is" +:+ " " +:+ Sprint b +:+ newline ]
  | 2%Z | 3%Z =>
      shown r ++ [ if rejects b r then rejectionLine r else updatedLine (newBalance b r) ]
  | _ => menuLines ++ goodbye p
  end.

(** The files after one pass of the loop body: an accepted amount is
    followed by one write of the new balance, which the file system
    may refuse. *)
Definition filesAfter (p : program) (r : round) (b : float) (w : world) :
    gmap string string :=
  if writesFile p && accepts b r
  then files (os_WriteFile accountBalanceFile (Sprint (newBalance b r)) w).2
  else files w.

(** The world after one pass of the loop body. *)
Definition worldAfter (p : program) (r : round) (b : float) (w : world) : world :=
  {| stdout := stdout w ++ printedBy p r b;
     files := filesAfter p r b w;
     clock := clock w;
     disk := disk w |}.

End Transcript.

Section Invariants.

Context `{rt : GoRuntime}.

(** Only [balance.txt] may differ from the files of [w0]. *)
Definition only_balance_file (w0 : world) : invariant :=
  fun _ w => forall name, name <> accountBalanceFile -> files w !! name = files w0 !! name.

(** No file differs from those of [w0]. *)
Definition files_untouched (w0 : world) : invariant :=
  fun _ w => files w = files w0.

(** On a file system that accepts the writes to [balance.txt]: either
    nothing was written and the balance is still [b0], or the file
    holds the text of the current balance. *)
Definition persisted (b0 : float) (orig : option string) : invariant :=
  fun b w => writable w /\
             ((files w !! accountBalanceFile = orig /\ b = b0) \/
              files w !! accountBalanceFile = Some (Sprint b)).

End Invariants.

End BankSession.

(** ** The [strings] functions used by [Save] *)

Module Strings.

(** From position [skip] on, every non-overlapping occurrence of [old]
    is replaced by [new]; [skip] counts the bytes of an occurrence that
    are still to be dropped. *)
Fixpoint replace_from (skip : nat) (s old new : string) : string :=
  match s with
  | EmptyString => EmptyString
  | String c s' =>
      match skip with
      | S k => replace_from k s' old new
      | O =>
          if String.prefix old s
          then new +:+ replace_from (String.length old - 1) s' old new
          else String c (replace_from 0 s' old new)
      end
  end.

(** [strings.ReplaceAll(s, old, new)] for a non-empty [old], which is
    how the snippets call it. *)
Definition ReplaceAll (s old new : string) : string := replace_from 0 s old new.

Definition isASCII (c : ascii) : bool := (nat_of_ascii c <? 128)%nat.

Definition isUpper (c : ascii) : bool :=
  (65 <=? nat_of_ascii c)%nat && (nat_of_ascii c <=? 90)%nat.

(** ['A' <= c && c <= 'Z'] gives [c + ('a' - 'A')]. *)
Definition lowerByte (c : ascii) : ascii :=
  if isUpper c then ascii_of_nat (nat_of_ascii c + 32) else c.

Fixpoint mapBytes (f : ascii -> ascii) (s : string) : string :=
  match s with
  | EmptyString => EmptyString
  | String c s' => String (f c) (mapBytes f s')
  end.

Fixpoint allBytes (p : ascii -> bool) (s : string) : bool :=
  match s with
  | EmptyString => true
  | String c s' => p c && allBytes p s'
  end.

(** [strings.ToLower]: byte by byte on pure ASCII text, through the
    Unicode tables otherwise. *)
Definition ToLower `{rt : GoRuntime} (s : string) : string :=
  if allBytes isASCII s then mapBytes lowerByte s else unicode_ToLower s.

End Strings.

(** ** [encoding/json] on structs *)

Module Json.

(** A field value of the structs that the snippets marshal. *)
Inductive value : Type :=
| GoString (s : string)
| GoTime (t : Time).

(** An exported struct field as [json.Marshal] sees it by reflection:
    its Go name, the name of its [json:...] tag when it has one, and
    its value. *)
Record field : Type := {
  goName : string;
  jsonTag : option string;
  fieldValue : value;
}.

(** The key of a field: the tag name when present, else the Go name. *)
Definition key (f : field) : string :=
  match jsonTag f with
  | Some name => name
  | None => goName f
  end.

Section Encoder.

Context `{rt : GoRuntime}.

Definition encodeValue (v : value) : string + error :=
  match v with
  | GoString s => inl (json_string s)
  | GoTime t => Time_MarshalJSON t
  end.

(** One [key:value] member. *)
Definition member (k v : string) : string := quote +:+ k +:+ quote +:+ ":" +:+ v.

(** The members of an object, in field order; the first error wins. *)
Fixpoint members (fs : list field) : list string + error :=
  match fs with
  | [] => inl []
  | f :: fs' =>
      match encodeValue (fieldValue f) with
      | inr e => inr e
      | inl v =>
          match members fs' with
          | inr e => inr e
          | inl ms => inl (member (key f) v :: ms)
          end
      end
  end.

Fixpoint joinComma (ms : list string) : string :=
  match ms with
  | [] => ""
  | [m] => m
  | m :: ms' => m +:+ "," +:+ joinComma ms'
  end.

(** [json.Marshal] of a struct with the given fields. *)
Definition Marshal (fs : list field) : string + error :=
  match members fs with
  | inr e => inr e
  | inl ms => inl ("{" +:+ joinComma ms +:+ "}")
  end.

End Encoder.

End Json.

(** ** The [note] package *)

Module Note.

Record Note : Type := {
  Title : string;
  Content : string;
  CreatedAt : Time;
}.

(** [Note{}]. *)
Definition zero : Note := {| Title := ""; Content := ""; CreatedAt := 0 |}.

(** The two copies of the package differ in the struct declaration only. *)
Inductive snippet : Type :=
| Fixes            (* 16-fixes/note/note.go: no struct tags *)
| StructTags.      (* 17-struct-tags/note/note.go: [json:...] tags *)

(** The struct declaration of each copy, as reflection presents a value of it. *)
Definition fields (v : snippet) (note : Note) : list Json.field :=
  match v with
  | Fixes =>
      [ {| Json.goName := "Title"; Json.jsonTag := None;
           Json.fieldValue := Json.GoString (Title note) |};
        {| Json.goName := "Content"; Json.jsonTag := None;
           Json.fieldValue := Json.GoString (Content note) |};
        {| Json.goName := "CreatedAt"; Json.jsonTag := None;
           Json.fieldValue := Json.GoTime (CreatedAt note) |} ]
  | StructTags =>
      [ {| Json.goName := "Title"; Json.jsonTag := Some "title";
           Json.fieldValue := Json.GoString (Title note) |};
        {| Json.goName := "Content"; Json.jsonTag := Some "content";
           Json.fieldValue := Json.GoString (Content note) |};
        {| Json.goName := "CreatedAt"; Json.jsonTag := Some "created_at";
           Json.fieldValue := Json.GoTime (CreatedAt note) |} ]
  end.

Section Methods.

Context `{rt : GoRuntime}.

Definition Display (note : Note) : IO unit :=
  Print ("Your note titled " +:+ Title note +:+ " has the following content:"
         +:+ newline +:+ newline +:+ Content note +:+ newline +:+ newline).

Definition fileNameOf (title : string) : string :=
  let fileName := Strings.ReplaceAll title " " "_" in
  Strings.ToLower fileName +:+ ".json".

Definition Save (v : snippet) (note : Note) : IO (option error) :=
  let fileName := fileNameOf (Title note) in
  match Json.Marshal (fields v note) with
  | inr err => mret (Some err)
  | inl json => os_WriteFile fileName json
  end.

Definition New (title content : string) : IO (Note * option error) :=
  if String.eqb title "" || String.eqb content "" then
    mret (zero, Some (errors_New "Invalid input."))
  else
    now ← time_Now;
    mret ({| Title := title; Content := content; CreatedAt := now |}, None).

(** A caller's variable holding a note, and the calls it can make on
    it.  [Display] and [Save] have value receivers: each call works on a
    copy, and the variable keeps its value. *)
Inductive call : Type := CallDisplay | CallSave (v : snippet).

Definition invoke (c : call) (userNote : Note) : IO Note :=
  match c with
  | CallDisplay => Display userNote ;; mret userNote
  | CallSave v => Save v userNote ;; mret userNote
  end.

Fixpoint invokeAll (cs : list call) (userNote : Note) : IO Note :=
  match cs with
  | [] => mret userNote
  | c :: cs' => userNote ← invoke c userNote; invokeAll cs' userNote
  end.

(** *** Vocabulary of the properties *)

(** Spec wording of the file name: a space becomes an underscore, ... *)
Definition underscore (c : ascii) : ascii :=
  if ascii_dec c " " then "_"%char else c.

(** ... and the result is lower-cased and given the extension. *)
Definition derivedName (title : string) : string :=
  Strings.mapBytes (fun c => Strings.lowerByte (underscore c)) title +:+ ".json".

(** The text of a JSON object with three members, character by
    character: an opening brace, each key between double quotes
    followed by a colon and the value, commas in between, a closing
    brace, and no white space. *)
Definition object3 (k1 v1 k2 v2 k3 v3 : string) : string :=
  "{" +:+ quote +:+ k1 +:+ quote +:+ ":" +:+ v1 +:+ "," +:+
          quote +:+ k2 +:+ quote +:+ ":" +:+ v2 +:+ "," +:+
          quote +:+ k3 +:+ quote +:+ ":" +:+ v3 +:+ "}".

End Methods.

End Note.

(** ** The [todo] package *)

Module Todo.

Record Todo : Type := {
  Text : string;
  CreatedAt : Time;
}.

Definition zero : Todo := {| Text := ""; CreatedAt := 0 |}.

(** Modelled from the spec: the [todo] package itself is not among the
    sources (only its caller, 06-interfaces/04-using-the-interface/main.go,
    which also sketches it in a comment).  "Structurally identical in
    spirit to Note with one field"; "cannot be constructed with an
    empty required field". *)
Definition New (text : string) : IO (Todo * option error) :=
  if String.eqb text "" then
    mret (zero, Some (errors_New "Invalid input."))
  else
    now ← time_Now;
    mret ({| Text := text; CreatedAt := now |}, None).

End Todo.

(** ** The [user] package *)

Module User.

Record User : Type := {
  firstName : string;
  lastName : string;
  birthDate : string;
  createdAt : Time;
}.

(** [Admin] embeds a [User]. *)
Record Admin : Type := {
  email : string;
  password : string;
  embedded : User;
}.

(** [func (u *User) ClearUserName()]: the struct behind the pointer
    before and after the call. *)
Definition ClearUserName (u : User) : User :=
  {| firstName := ""; lastName := "";
     birthDate := birthDate u; createdAt := createdAt u |}.

(** [admin.ClearUserName()]: the promoted method runs on the embedded [User]. *)
Definition Admin_ClearUserName (a : Admin) : Admin :=
  {| email := email a; password := password a;
     embedded := ClearUserName (embedded a) |}.

Definition NewAdmin (email password : string) : IO Admin :=
  now ← time_Now;
  mret {| email := email; password := password;
          embedded := {| firstName := "ADMIN"; lastName := "ADMIN";
                         birthDate := "---"; createdAt := now |} |}.

(** [New] returns a [*User]: [None] is the nil pointer. *)
Definition New (firstName lastName birthdate : string) : IO (option User * option error) :=
  if String.eqb firstName "" || String.eqb lastName "" || String.eqb birthdate "" then
    mret (None, Some (errors_New "First name, last name and birthdate are required."))
  else
    now ← time_Now;
    mret (Some {| firstName := firstName; lastName := lastName;
                  birthDate := birthdate; createdAt := now |}, None).

End User.

(** ** Reading JSON back: [json.Unmarshal] into a Note *)

Module JsonRead.

(** *** String literals *)

(** Where the scanner stands inside a string literal: in plain text,
    after a backslash, or in a [\u] escape with [n] hexadecimal digits
    still to come. *)
Inductive strState : Type := Plain | Escaped | Hex (n : nat).

Definition isByte (c x : ascii) : bool := Ascii.eqb c x.

Definition isDigit (c : ascii) : bool :=
  (48 <=? nat_of_ascii c)%nat && (nat_of_ascii c <=? 57)%nat.

Definition isHex (c : ascii) : bool :=
  isDigit c
  || ((97 <=? nat_of_ascii c)%nat && (nat_of_ascii c <=? 102)%nat)
  || ((65 <=? nat_of_ascii c)%nat && (nat_of_ascii c <=? 70)%nat).

Definition backslash : ascii := "\"%char.

Definition dquote : ascii := "034"%char.

(** One byte inside a string literal: [inl None] after the closing
    quote, [inl (Some q)] while the literal goes on, [inr context] when
    the byte is not allowed there. *)
Definition strStep (q : strState) (c : ascii) : option strState + string :=
  match q with
  | Plain =>
      if isByte c dquote then inl None
      else if isByte c backslash then inl (Some Escaped)
      else if (nat_of_ascii c <? 32)%nat then inr "in string literal"
      else inl (Some Plain)
  | Escaped =>
      if isByte c "b" || isByte c "f" || isByte c "n" || isByte c "r" || isByte c "t"
         || isByte c backslash || isByte c "/" || isByte c dquote
      then inl (Some Plain)
      else if isByte c "u" then inl (Some (Hex 4))
      else inr "in string escape code"
  | Hex n =>
      if isHex c then inl (Some (match n with S (S k) => Hex (S k) | _ => Plain end))
      else inr "in \u hexadecimal character escape"
  end.

(** [s] runs from [q] to the closing quote, which is its last byte. *)
Fixpoint closes (q : strState) (s : string) : bool :=
  match s with
  | EmptyString => false
  | String c s' =>
      match strStep q c with
      | inl None => match s' with EmptyString => true | _ => false end
      | inl (Some q') => closes q' s'
      | inr _ => false
      end
  end.

(** A JSON string literal: a double quote, the body, a double quote. *)
Definition isStringLiteral (v : string) : bool :=
  match v with
  | String c body => isByte c dquote && closes Plain body
  | EmptyString => false
  end.

(** *** The scanner: is the text one JSON value? *)

Inductive parseState : Type := parseObjectKey | parseObjectValue | parseArrayValue.

(** The states of the scanner of [encoding/json]. *)
Inductive stepState : Type :=
| BeginValueOrEmpty              (* after [[] *)
| BeginValue
| BeginStringOrEmpty             (* after [{] *)
| BeginString                    (* after a comma in an object *)
| EndValue
| EndTop
| InString (q : strState)
| Neg                            (* after [-] *)
| Int1                           (* in an integer that does not start with 0 *)
| Int0                           (* after the integer part *)
| Dot
| Dot0
| Exp
| ExpSign
| Exp0
| Name (word rest : string).     (* in [true], [false] or [null]: the letters to come *)

Definition isSpace (c : ascii) : bool :=
  isByte c " " || isByte c "009" || isByte c "013" || isByte c "010".

Definition maxNestingDepth : Z := 10000.

Definition scanState : Type := stepState * list parseState.

Definition push (ps : parseState) (next : stepState) (stack : list parseState) :
    scanState + string :=
  if (Z.of_nat (length stack) <? maxNestingDepth)%Z then inl (next, ps :: stack)
  else inr "exceeded max depth".

(** After the closing brace or bracket of a value. *)
Definition pop (stack : list parseState) : scanState :=
  match stack with
  | [] => (EndTop, [])
  | _ => (EndValue, stack)
  end.

Definition endValue (stack : list parseState) (c : ascii) : scanState + string :=
  match stack with
  | [] => if isSpace c then inl (EndTop, []) else inr "after top-level value"
  | ps :: stack' =>
      if isSpace c then inl (EndValue, stack)
      else
        match ps with
        | parseObjectKey =>
            if isByte c ":" then inl (BeginValue, parseObjectValue :: stack')
            else inr "after object key"
        | parseObjectValue =>
            if isByte c "," then inl (BeginString, parseObjectKey :: stack')
            else if isByte c "}" then inl (pop stack')
            else inr "after object key:value pair"
        | parseArrayValue =>
            if isByte c "," then inl (BeginValue, stack)
            else if isByte c "]" then inl (pop stack')
            else inr "after array element"
        end
  end.

Definition beginValue (stack : list parseState) (c : ascii) : scanState + string :=
  if isByte c "{" then push parseObjectKey BeginStringOrEmpty stack
  else if isByte c "[" then push parseArrayValue BeginValueOrEmpty stack
  else if isByte c dquote then inl (InString Plain, stack)
  else if isByte c "-" then inl (Neg, stack)
  else if isByte c "0" then inl (Int0, stack)
  else if isByte c "t" then inl (Name "true" "rue", stack)
  else if isByte c "f" then inl (Name "false" "alse", stack)
  else if isByte c "n" then inl (Name "null" "ull", stack)
  else if isDigit c then inl (Int1, stack)
  else inr "looking for beginning of value".

Definition step (st : scanState) (c : ascii) : scanState + string :=
  let '(s, stack) := st in
  match s with
  | BeginValueOrEmpty =>
      if isSpace c then inl st
      else if isByte c "]" then endValue stack c
      else beginValue stack c
  | BeginValue => if isSpace c then inl st else beginValue stack c
  | BeginStringOrEmpty =>
      if isSpace c then inl st
      else if isByte c "}" then endValue (parseObjectValue :: tl stack) c
      else if isByte c dquote then inl (InString Plain, stack)
      else inr "looking for beginning of object key string"
  | BeginString =>
      if isSpace c then inl st
      else if isByte c dquote then inl (InString Plain, stack)
      else inr "looking for beginning of object key string"
  | EndValue => endValue stack c
  | EndTop => if isSpace c then inl st else inr "after top-level value"
  | InString q =>
      match strStep q c with
      | inl None => inl (EndValue, stack)
      | inl (Some q') => inl (InString q', stack)
      | inr context => inr context
      end
  | Neg =>
      if isByte c "0" then inl (Int0, stack)
      else if isDigit c then inl (Int1, stack)
      else inr "in numeric literal"
  | Int1 =>
      if isDigit c then inl (Int1, stack)
      else if isByte c "." then inl (Dot, stack)
      else if isByte c "e" || isByte c "E" then inl (Exp, stack)
      else endValue stack c
  | Int0 =>
      if isByte c "." then inl (Dot, stack)
      else if isByte c "e" || isByte c "E" then inl (Exp, stack)
      else endValue stack c
  | Dot =>
      if isDigit c then inl (Dot0, stack)
      else inr "after decimal point in numeric literal"
  | Dot0 =>
      if isDigit c then inl (Dot0, stack)
      else if isByte c "e" || isByte c "E" then inl (Exp, stack)
      else endValue stack c
  | Exp =>
      if isByte c "+" || isByte c "-" then inl (ExpSign, stack)
      else if isDigit c then inl (Exp0, stack)
      else inr "in exponent of numeric literal"
  | ExpSign =>
      if isDigit c then inl (Exp0, stack)
      else inr "in exponent of numeric literal"
  | Exp0 => if isDigit c then inl (Exp0, stack) else endValue stack c
  | Name word rest =>
      match rest with
      | String x rest' =>
          if isByte c x
          then inl (match rest' with EmptyString => EndValue | _ => Name word rest' end, stack)
          else inr ("in literal " +:+ word +:+ " (expecting '" +:+ String x "')")
      | EmptyString => inr ("in literal " +:+ word)
      end
  end.

(** What is wrong with a text (the byte that is not allowed, where,
    and after how many bytes), or with a value for the field it is
    meant for. *)
Inductive fault : Type :=
| BadSyntax (c : ascii) (context : string) (offset : nat)
| EndOfInput (offset : nat)
| WrongType (value : string) (field : string).

(** The scanner run over the bytes of [s], [n] bytes having been read before. *)
Fixpoint scan (st : scanState) (n : nat) (s : string) : scanState * nat + fault :=
  match s with
  | EmptyString => inl (st, n)
  | String c s' =>
      match step st c with
      | inl st' => scan st' (S n) s'
      | inr context => inr (BadSyntax c context (S n))
      end
  end.

(** [checkValid]: the whole text is one JSON value, white space around
    it apart.  At the end of the input the scanner is given a space,
    which ends a number. *)
Definition checkValid (data : string) : option fault :=
  match scan (BeginValue, []) 0 data with
  | inr f => Some f
  | inl ((EndTop, _), _) => None
  | inl (st, n) =>
      match step st " " with
      | inl (EndTop, _) => None
      | inl _ => Some (EndOfInput n)
      | inr context => Some (BadSyntax " " context n)
      end
  end.

(** *** The members of an object *)

(** Splitting a valid object text into its members, each a key
    literal and the text of its value: the bytes outside string
    literals are followed for braces, brackets, colons and commas. *)
Record splitter : Type := {
  depth : nat;                      (* braces and brackets that are open *)
  inStr : option strState;          (* inside a string literal *)
  key : string;                     (* the key literal of the member being read *)
  cur : string;                     (* the key or value read so far *)
  inValue : bool;                   (* past the colon of the member *)
  done : list (string * string);    (* the members read, last first *)
}.

Definition snoc (s : string) (c : ascii) : string := s +:+ String c "".

Definition split1 (sp : splitter) (c : ascii) : splitter :=
  match inStr sp with
  | Some q =>
      {| depth := depth sp;
         inStr := match strStep q c with inl (Some q') => Some q' | _ => None end;
         key := key sp; cur := snoc (cur sp) c; inValue := inValue sp; done := done sp |}
  | None =>
      if isByte c dquote then
        {| depth := depth sp; inStr := Some Plain;
           key := key sp; cur := snoc (cur sp) c; inValue := inValue sp; done := done sp |}
      else if isByte c "{" || isByte c "[" then
        match depth sp with
        | O => {| depth := 1; inStr := None;
                  key := key sp; cur := cur sp; inValue := inValue sp; done := done sp |}
        | S _ => {| depth := S (depth sp); inStr := None;
                    key := key sp; cur := snoc (cur sp) c; inValue := inValue sp;
                    done := done sp |}
        end
      else if isByte c "}" || isByte c "]" then
        match depth sp with
        | S (S d) => {| depth := S d; inStr := None;
                        key := key sp; cur := snoc (cur sp) c; inValue := inValue sp;
                        done := done sp |}
        | _ => {| depth := 0; inStr := None; key := ""; cur := ""; inValue := false;
                  done := if inValue sp then (key sp, cur sp) :: done sp else done sp |}
        end
      else
        match depth sp with
        | O => sp
        | S O =>
            if isByte c ":" then
              {| depth := 1; inStr := None;
                 key := cur sp; cur := ""; inValue := true; done := done sp |}
            else if isByte c "," then
              {| depth := 1; inStr := None;
                 key := ""; cur := ""; inValue := false;
                 done := (key sp, cur sp) :: done sp |}
            else if isSpace c then sp
            else {| depth := 1; inStr := None;
                    key := key sp; cur := snoc (cur sp) c; inValue := inValue sp;
                    done := done sp |}
        | S (S _) =>
            {| depth := depth sp; inStr := None;
               key := key sp; cur := snoc (cur sp) c; inValue := inValue sp;
               done := done sp |}
        end
  end.

Fixpoint split (sp : splitter) (s : string) : splitter :=
  match s with
  | EmptyString => sp
  | String c s' => split (split1 sp c) s'
  end.

Definition members (data : string) : list (string * string) :=
  rev (done (split {| depth := 0; inStr := None; key := ""; cur := "";
                      inValue := false; done := [] |} data)).

Fixpoint skipSpace (s : string) : string :=
  match s with
  | String c s' => if isSpace c then skipSpace s' else s
  | EmptyString => EmptyString
  end.

(** The kind of a JSON value, from its first byte. *)
Inductive kind : Type := KObject | KArray | KString | KBool | KNull | KNumber.

Definition kindOf (raw : string) : kind :=
  match raw with
  | String c _ =>
      if isByte c "{" then KObject
      else if isByte c "[" then KArray
      else if isByte c dquote then KString
      else if isByte c "t" || isByte c "f" then KBool
      else if isByte c "n" then KNull
      else KNumber
  | EmptyString => KNull
  end.

(** The text of an object with three members, from the texts of the
    keys and of the values (vocabulary of the properties). *)
Definition flat3 (k1 v1 k2 v2 k3 v3 : string) : string :=
  "{" +:+ k1 +:+ ":" +:+ v1 +:+ "," +:+ k2 +:+ ":" +:+ v2 +:+ "," +:+
          k3 +:+ ":" +:+ v3 +:+ "}".

(** *** Decoding *)

(** The library functions behind [json.Unmarshal] whose code is not
    part of the repository. *)
Class Decoders : Type := {
  (** [encoding/json]: the Go string that a JSON string literal with an
      escape sequence or a byte outside ASCII stands for. *)
  unquoteEscaped : string -> string;
  (** [time.Time.UnmarshalJSON], on the text of a JSON value. *)
  Time_UnmarshalJSON : string -> Time + error;
  (** The [error] value that [encoding/json] makes of a fault. *)
  json_error : fault -> error;
}.

Section Decoding.

Context `{rt : GoRuntime} `{dec : Decoders}.

(** In a literal made of these bytes only, the body is the string. *)
Definition plainByte (c : ascii) : bool :=
  Strings.isASCII c && negb (nat_of_ascii c <? 32)%nat
  && negb (isByte c dquote) && negb (isByte c backslash).

Definition body (lit : string) : string :=
  match lit with
  | String _ s => substring 0 (String.length s - 1) s
  | EmptyString => EmptyString
  end.

(** The Go string of a JSON string literal. *)
Definition unquote (lit : string) : string :=
  if Strings.allBytes plainByte (body lit) then body lit else unquoteEscaped lit.

(** The field a key selects: the one whose name is the key, else the
    first whose name is the key up to case.  The names of the Note
    fields are ASCII without [k] or [s], the two ASCII letters that have
    case variants outside ASCII: for them, equal up to case is equal
    once the letters A-Z are lower-cased. *)
Definition equalFold (a b : string) : bool :=
  String.eqb (Strings.mapBytes Strings.lowerByte a) (Strings.mapBytes Strings.lowerByte b).

Fixpoint indexOf (p : string -> bool) (names : list string) : option nat :=
  match names with
  | [] => None
  | name :: names' =>
      if p name then Some O
      else match indexOf p names' with Some i => Some (S i) | None => None end
  end.

Definition fieldOf (names : list string) (k : string) : option nat :=
  match indexOf (String.eqb k) names with
  | Some i => Some i
  | None => indexOf (equalFold k) names
  end.

(** Decoding stores into the Note that [Unmarshal] is given, field by
    field; it remembers the first value of the wrong type and goes on,
    and stops at the first error of an [UnmarshalJSON] method. *)
Record decoding : Type := {
  target : Note.Note;
  savedError : option fault;
  failed : option error;
}.

Definition storeString (set : string -> Note.Note -> Note.Note) (name raw : string)
    (d : decoding) : decoding :=
  match kindOf raw with
  | KString => {| target := set (unquote raw) (target d);
                  savedError := savedError d; failed := None |}
  | KNull => d
  | _ => {| target := target d;
            savedError := match savedError d with
                          | Some f => Some f
                          | None => Some (WrongType raw name)
                          end;
            failed := None |}
  end.

Definition storeTime (set : Time -> Note.Note -> Note.Note) (raw : string)
    (d : decoding) : decoding :=
  match Time_UnmarshalJSON raw with
  | inl t => {| target := set t (target d); savedError := savedError d; failed := None |}
  | inr e => {| target := target d; savedError := savedError d; failed := Some e |}
  end.

Definition setTitle (s : string) (n : Note.Note) : Note.Note :=
  {| Note.Title := s; Note.Content := Note.Content n; Note.CreatedAt := Note.CreatedAt n |}.

Definition setContent (s : string) (n : Note.Note) : Note.Note :=
  {| Note.Title := Note.Title n; Note.Content := s; Note.CreatedAt := Note.CreatedAt n |}.

Definition setCreatedAt (t : Time) (n : Note.Note) : Note.Note :=
  {| Note.Title := Note.Title n; Note.Content := Note.Content n; Note.CreatedAt := t |}.

(** One member of the object, for the Note declared in copy [v]. *)
Definition storeMember (v : Note.snippet) (d : decoding) (m : string * string) : decoding :=
  match failed d with
  | Some _ => d
  | None =>
      let names := map Json.key (Note.fields v Note.zero) in
      match fieldOf names (unquote m.1) with
      | Some 0%nat => storeString setTitle (unquote m.1) m.2 d
      | Some 1%nat => storeString setContent (unquote m.1) m.2 d
      | Some 2%nat => storeTime setCreatedAt m.2 d
      | _ => d
      end
  end.

(** [json.Unmarshal(data, &note)]: the Note afterwards, and the error. *)
Definition Unmarshal (v : Note.snippet) (data : string) (note : Note.Note) :
    Note.Note * option error :=
  match checkValid data with
  | Some f => (note, Some (json_error f))
  | None =>
      match kindOf (skipSpace data) with
      | KObject =>
          let d := fold_left (storeMember v) (members data)
                     {| target := note; savedError := None; failed := None |} in
          (target d,
           match failed d with
           | Some e => Some e
           | None => match savedError d with
                     | Some f => Some (json_error f)
                     | None => None
                     end
           end)
      | KNull => (note, None)
      | _ => (note, Some (json_error (WrongType (skipSpace data) "")))
      end
  end.

(** Modelled from the sketch in the comments of 17-struct-tags/note/note.go
    (lines 276-291, "POTENTIAL LOAD FUNCTION", which the package does not
    define): read the file, unmarshal it into a fresh Note.  The variant
    printed at lines 397-406 returns the Note together with the error of
    [json.Unmarshal]; the two agree when there is no error. *)
Definition Load (v : Note.snippet) (filename : string) : IO (Note.Note * option error) :=
  '(data, err) ← os_ReadFile filename;
  match err with
  | Some e => mret (Note.zero, Some e)
  | None =>
      let note := Note.zero in
      let '(note, err) := Unmarshal v data note in
      match err with
      | Some e => mret (Note.zero, Some e)
      | None => mret (note, None)
      end
  end.

(** *** Vocabulary of the properties *)

(** The text [s] comes back from its JSON encoding: [json.Marshal]
    writes it as a string literal, which [json.Unmarshal] reads as [s]. *)
Definition survives (s : string) : Prop :=
  isStringLiteral (json_string s) = true /\ unquote (json_string s) = s.

(** The time [t] comes back from its JSON encoding. *)
Definition timeSurvives (t : Time) : Prop :=
  exists created, Time_MarshalJSON t = inl created /\
                  isStringLiteral created = true /\
                  Time_UnmarshalJSON created = inl t.

End Decoding.

End JsonRead.

(** *** Sample decoders

    For running [json.Unmarshal] on concrete texts: the escape of
    U+FFFD stands for its three UTF-8 bytes, and the times of the
    sample runtime are read back from their texts. *)

Definition sample_unquoteEscaped (lit : string) : string :=
  if String.eqb lit (quote +:+ "\ufffd" +:+ quote) then replacementChar
  else JsonRead.body lit.

Definition sample_Time_UnmarshalJSON (raw : string) : Time + error :=
  match find (fun p => String.eqb (quote +:+ p.2 +:+ quote) raw) sample_times with
  | Some p => inl p.1
  | None => inr (errors_New "parsing time: cannot parse")
  end.

Definition sample_json_error (f : JsonRead.fault) : error :=
  match f with
  | JsonRead.BadSyntax c context _ =>
      errors_New ("invalid character '" +:+ String c "' " +:+ context)
  | JsonRead.EndOfInput _ => errors_New "unexpected end of JSON input"
  | JsonRead.WrongType _ _ => errors_New "json: cannot unmarshal"
  end.

#[local] Instance sample_decoders : JsonRead.Decoders := {|
  JsonRead.unquoteEscaped := sample_unquoteEscaped;
  JsonRead.Time_UnmarshalJSON := sample_Time_UnmarshalJSON;
  JsonRead.json_error := sample_json_error;
|}.

(** ** The profit calculator *)

Module Profit.

Local Open Scope float_scope.

(** [fmt]'s verb [%.Nf] on a float64, whose code is not part of the
    repository: the number with [N] digits after the decimal point. *)
Class Formatting : Type := {
  formatFixed : nat -> float -> string;
}.

Definition calculateFinancials (revenue expenses taxRate : float) : float * float * float :=
  let ebt := revenue - expenses in
  let profit := ebt * (1 - taxRate / 100) in
  let ratio := ebt / profit in
  (ebt, profit, ratio).

Definition resultsFile : string := "results.txt".

Section Programs.

Context `{fmt : Formatting}.

(** [scanned] is what [fmt.Scan] stores in [userInput]: the number
    typed, or the zero value when the scan fails. *)
Definition getUserInput (infoText : string) (scanned : float) : IO (float * option error) :=
  let userInput := scanned in
  Print infoText ;;
  if userInput <=? 0 then mret (0, Some (errors_New "Value must be a positive number."))
  else mret (userInput, None).

Definition storeResults (ebt profit ratio : float) : IO unit :=
  let results :=
    "EBT: " +:+ formatFixed 1 ebt +:+ newline +:+
    "Profit: " +:+ formatFixed 1 profit +:+ newline +:+
    "Ratio: " +:+ formatFixed 3 ratio +:+ newline in
  os_WriteFile resultsFile results ;; mret tt.

(** [main], on the three values the scans store (a scan that is not
    reached stores nothing). *)
Definition main (typed1 typed2 typed3 : float) : IO unit :=
  '(revenue, err) ← getUserInput "Revenue: " typed1;
  match err with
  | Some e => Println (Bank.Error e)
  | None =>
      '(expenses, err) ← getUserInput "Expenses: " typed2;
      match err with
      | Some e => Println (Bank.Error e)
      | None =>
          '(taxRate, err) ← getUserInput "Tax Rate: " typed3;
          match err with
          | Some e => Println (Bank.Error e)
          | None =>
              let '(ebt, profit, ratio) := calculateFinancials revenue expenses taxRate in
              Print (formatFixed 1 ebt +:+ newline) ;;
              Print (formatFixed 1 profit +:+ newline) ;;
              Print (formatFixed 3 ratio +:+ newline) ;;
              storeResults ebt profit ratio
          end
      end
  end.

(** *** Vocabulary of the properties *)

(** The value passes the check of [getUserInput]. *)
Definition passes (x : float) : bool := negb (x <=? 0).

Definition refusal : string := "Value must be a positive number." +:+ newline.

(** The text of [results.txt] and the lines printed for three results. *)
Definition resultsText (r : float * float * float) : string :=
  "EBT: " +:+ formatFixed 1 r.1.1 +:+ newline +:+
  "Profit: " +:+ formatFixed 1 r.1.2 +:+ newline +:+
  "Ratio: " +:+ formatFixed 3 r.2 +:+ newline.

Definition resultsLines (r : float * float * float) : list string :=
  [ formatFixed 1 r.1.1 +:+ newline; formatFixed 1 r.1.2 +:+ newline;
    formatFixed 3 r.2 +:+ newline ].

End Programs.

(** A sample of [%.1f] and [%.3f], right on the numbers listed. *)
Definition sample_fixed : list (nat * float * string) :=
  [ (1%nat, 600, "600.0"); (1%nat, 480, "480.0"); (3%nat, 1.25, "1.250") ]%float.

Definition sample_formatFixed (n : nat) (x : float) : string :=
  match find (fun p => Nat.eqb p.1.1 n && PrimFloat.Leibniz.eqb p.1.2 x) sample_fixed with
  | Some p => p.2
  | None => "?"
  end.

#[local] Instance sample_formatting : Formatting := {| formatFixed := sample_formatFixed |}.

End Profit.

(** ** The note program *)

Module NoteApp.

Import Note.

(** [strings.HasSuffix] and [strings.TrimSuffix]. *)
Definition HasSuffix (s suffix : string) : bool :=
  (String.length suffix <=? String.length s)%nat
  && String.eqb (substring (String.length s - String.length suffix)
                           (String.length suffix) s) suffix.

Definition TrimSuffix (s suffix : string) : string :=
  if HasSuffix s suffix
  then substring 0 (String.length s - String.length suffix) s
  else s.

Definition carriageReturn : string := String "013" "".

Section Programs.

Context `{rt : GoRuntime}.

(** [read] is what [reader.ReadString('\n')] returns: the text up to
    and including the first newline and a nil error, or the text before
    the end of the input and an error when no newline came. *)
Definition getUserInput (prompt : string) (read : string * option error) : IO string :=
  Print (prompt +:+ " ") ;;
  let '(text, err) := read in
  match err with
  | Some _ => mret ""
  | None =>
      let text := TrimSuffix text newline in
      let text := TrimSuffix text carriageReturn in
      mret text
  end.

Definition getNoteData (read1 read2 : string * option error) : IO (string * string) :=
  title ← getUserInput "Note title:" read1;
  content ← getUserInput "Note content:" read2;
  mret (title, content).

(** [main] of 16-fixes/main.go, part_010 and part_012, with the note
    package of copy [v]. *)
Definition main (v : snippet) (read1 read2 : string * option error) : IO unit :=
  '(title, content) ← getNoteData read1 read2;
  '(userNote, err) ← New title content;
  match err with
  | Some e => Println (Bank.Error e)
  | None =>
      Display userNote ;;
      err ← Save v userNote;
      match err with
      | Some _ => Println "Saving the note failed."
      | None => Println "Saving the note succeeded!"
      end
  end.

(** *** Vocabulary of the properties *)

(** A line as a terminal delivers it: the text typed, without a line
    end in it, followed by a newline or by a carriage return and a
    newline. *)
Definition typed (line : string) (windows : bool) : string * option error :=
  (line +:+ (if windows then carriageReturn else "") +:+ newline, None).

(** What the program prints before it answers. *)
Definition prompts : list string := [ "Note title: "; "Note content: " ].

Definition displayed (title content : string) : string :=
  "Your note titled " +:+ title +:+ " has the following content:"
  +:+ newline +:+ newline +:+ content +:+ newline +:+ newline.

End Programs.

End NoteApp.

(** * Proofs *)

(** ** Facts on the binary64 specification *)

Section SpecFloatFacts.

Lemma digits2_pos_bounds (m : positive) :
  2 ^ (Z.pos (digits2_pos m) - 1) <= Z.pos m < 2 ^ Z.pos (digits2_pos m).
Proof.
  induction m as [m IH | m IH |]; cbn [digits2_pos].
  - rewrite Pos2Z.inj_succ.
    replace (Z.succ (Z.pos (digits2_pos m)) - 1) with (Z.succ (Z.pos (digits2_pos m) - 1)) by lia.
    rewrite !Z.pow_succ_r by lia. lia.
  - rewrite Pos2Z.inj_succ.
    replace (Z.succ (Z.pos (digits2_pos m)) - 1) with (Z.succ (Z.pos (digits2_pos m) - 1)) by lia.
    rewrite !Z.pow_succ_r by lia. lia.
  - cbn. lia.
Qed.

Lemma iter_xO_mul (d m : positive) :
  Z.pos (Pos.iter xO m d) = Z.pos m * 2 ^ Z.pos d.
Proof.
  revert m. induction d as [| d IH] using Pos.peano_ind; intros m.
  - cbn. lia.
  - rewrite Pos.iter_succ, Pos2Z.inj_succ, Z.pow_succ_r by lia.
    rewrite Pos2Z.inj_xO, IH. lia.
Qed.

Lemma shl_align_value (m : positive) (e e' : Z) :
  e' <= e -> Z.pos (fst (shl_align m e e')) = Z.pos m * 2 ^ (e - e').
Proof.
  intros Hle. unfold shl_align.
  destruct (e' - e) as [| p | p] eqn:E.
  - replace (e - e') with 0 by lia. cbn. lia.
  - lia.
  - cbn [fst]. rewrite iter_xO_mul. f_equal. f_equal. lia.
Qed.

(** A canonical binary64 mantissa has at most 53 bits; above the least
    exponent it has exactly 53. *)
Lemma bounded_mantissa (m : positive) (e : Z) :
  bounded prec emax m e = true ->
  Z.pos m < 2 ^ 53 /\ -1074 <= e /\ (-1074 < e -> 2 ^ 52 <= Z.pos m).
Proof.
  unfold bounded, canonical_mantissa, fexp, emin, prec, emax.
  intros H. apply andb_prop in H as [H _]. apply Z.eqb_eq in H.
  pose proof (digits2_pos_bounds m) as [Hlo Hhi].
  set (d := Z.pos (digits2_pos m)) in *.
  assert (Hd : 0 < d) by (subst d; lia).
  split; [| split].
  - assert (d <= 53) by lia.
    eapply Z.lt_le_trans; [exact Hhi |]. apply Z.pow_le_mono_r; lia.
  - lia.
  - intros He. assert (d = 53) by lia.
    replace (d - 1) with 52 in Hlo by lia. exact Hlo.
Qed.

(** Rounding keeps the sign it is given. *)
Lemma binary_round_aux_sign (sx : bool) (mx ex : Z) (lx : location) :
  match binary_round_aux prec emax sx mx ex lx with
  | S754_zero s | S754_infinity s | S754_finite s _ _ => s = sx
  | S754_nan => True
  end.
Proof.
  unfold binary_round_aux.
  destruct (shr_fexp prec emax mx ex lx) as [mrs' e'].
  destruct (shr_fexp prec emax _ e' loc_Exact) as [mrs'' e''].
  destruct (shr_m mrs''); try easy.
  destruct (e'' <=? emax - prec); easy.
Qed.

Lemma binary_round_sign (sx : bool) (m : positive) (e : Z) :
  match binary_round prec emax sx m e with
  | S754_zero s | S754_infinity s | S754_finite s _ _ => s = sx
  | S754_nan => True
  end.
Proof.
  unfold binary_round.
  destruct (shl_align m e _) as [mz ez]. apply binary_round_aux_sign.
Qed.

Lemma SFltb_zero (x : spec_float) :
  SFltb x (S754_zero false) = negb (sf_not_negative x).
Proof. destruct x as [[]|[]| |[] ? ?]; reflexivity. Qed.

Lemma binary_normalize_not_negative (m e : Z) :
  0 <= m -> sf_not_negative (binary_normalize prec emax m e false) = true.
Proof.
  intros Hm. destruct m as [| p | p]; [reflexivity | | lia].
  cbn [binary_normalize].
  pose proof (binary_round_sign false p e) as H.
  destruct (binary_round prec emax false p e) as [s|s| |s ? ?]; subst; reflexivity.
Qed.

End SpecFloatFacts.

Section SpecFloatArith.

Lemma shr_1_nonneg (mrs : shr_record) :
  0 <= shr_m mrs -> 0 <= shr_m (shr_1 mrs).
Proof.
  destruct mrs as [m r s]; cbn [shr_m]. intros Hm.
  destruct m as [| [p | p |] | p]; cbn; lia.
Qed.

Lemma iter_shr_1_nonneg (p : positive) (mrs : shr_record) :
  0 <= shr_m mrs -> 0 <= shr_m (SpecFloat.iter_pos shr_1 p mrs).
Proof.
  revert mrs. induction p as [p IH | p IH |]; intros mrs Hm; cbn [SpecFloat.iter_pos].
  - apply IH, IH, shr_1_nonneg, Hm.
  - apply IH, IH, Hm.
  - apply shr_1_nonneg, Hm.
Qed.

Lemma shr_fexp_nonneg (m e : Z) (l : location) :
  0 <= m -> 0 <= shr_m (fst (shr_fexp prec emax m e l)).
Proof.
  intros Hm. unfold shr_fexp, shr.
  assert (H0 : 0 <= shr_m (shr_record_of_loc m l)) by (destruct l as [| []]; exact Hm).
  destruct (fexp prec emax (Zdigits2 m + e) - e); cbn [fst]; auto using iter_shr_1_nonneg.
Qed.

Lemma round_nearest_even_nonneg (m : Z) (l : location) :
  0 <= m -> 0 <= round_nearest_even m l.
Proof.
  intros Hm. destruct l as [| []]; cbn [round_nearest_even]; try lia.
  destruct (Z.even m); lia.
Qed.

(** Rounding a non-negative mantissa never produces NaN. *)
Lemma binary_round_aux_not_nan (sx : bool) (mx ex : Z) (lx : location) :
  0 <= mx -> binary_round_aux prec emax sx mx ex lx <> S754_nan.
Proof.
  intros Hm. unfold binary_round_aux.
  pose proof (shr_fexp_nonneg mx ex lx Hm) as H1.
  destruct (shr_fexp prec emax mx ex lx) as [mrs' e']. cbn [fst] in H1.
  pose proof (shr_fexp_nonneg _ e' loc_Exact
                (round_nearest_even_nonneg _ (loc_of_shr_record mrs') H1)) as H2.
  destruct (shr_fexp prec emax _ e' loc_Exact) as [mrs'' e'']. cbn [fst] in H2.
  destruct (shr_m mrs'') as [| q | q]; [easy | | lia].
  destruct (e'' <=? emax - prec); easy.
Qed.

Lemma SFleb_zero (x : spec_float) :
  SFleb (S754_zero false) x = sf_nonneg x.
Proof. destruct x as [[]|[]| |[] ? ?]; reflexivity. Qed.

Lemma SFleb_zero_r (x : spec_float) :
  SFleb x (S754_zero false) = negb (sf_passes_positive x).
Proof. destruct x as [[]|[]| |[] ? ?]; reflexivity. Qed.

Lemma binary_normalize_nonneg (m e : Z) :
  0 <= m -> sf_nonneg (binary_normalize prec emax m e false) = true.
Proof.
  intros Hm. destruct m as [| p | p]; [reflexivity | | lia].
  cbn [binary_normalize]. unfold binary_round.
  destruct (shl_align p e _) as [mz ez].
  pose proof (binary_round_aux_sign false (Z.pos mz) ez loc_Exact) as Hs.
  pose proof (binary_round_aux_not_nan false (Z.pos mz) ez loc_Exact ltac:(lia)) as Hn.
  destruct (binary_round_aux prec emax false (Z.pos mz) ez loc_Exact) as [s|s| |s ? ?];
    subst; easy.
Qed.

Lemma sf_nonneg_not_negative (x : spec_float) :
  sf_nonneg x = true -> sf_not_negative x = true.
Proof. destruct x as [[]|[]| |[] ? ?]; easy. Qed.

(** Adding an amount that passed [amount <= 0] keeps the sum from going below zero. *)
Lemma SFadd_not_negative (x y : spec_float) :
  sf_not_negative x = true -> sf_passes_positive y = true ->
  sf_not_negative (SF64add x y) = true.
Proof.
  intros Hx Hy.
  destruct x as [sx|sx| |sx mx ex], y as [sy|sy| |sy my ey];
    try destruct sx; try destruct sy; try discriminate; try reflexivity.
  cbn [SF64add SFadd cond_Zopp]. apply binary_normalize_not_negative. lia.
Qed.

Lemma SFadd_nonneg (x y : spec_float) :
  sf_nonneg x = true -> sf_passes_positive y = true -> y <> S754_nan ->
  sf_nonneg (SF64add x y) = true.
Proof.
  intros Hx Hy Hn.
  destruct x as [sx|sx| |sx mx ex], y as [sy|sy| |sy my ey];
    try destruct sx; try destruct sy; try discriminate; try reflexivity; try congruence.
  cbn [SF64add SFadd cond_Zopp]. apply binary_normalize_nonneg. lia.
Qed.

(** When [y > x] is false for two canonical positive floats, the aligned
    mantissa of [x] is at least that of [y]. *)
Lemma aligned_mantissa_le (mx my : positive) (ex ey : Z) :
  bounded prec emax mx ex = true -> bounded prec emax my ey = true ->
  SFltb (S754_finite false mx ex) (S754_finite false my ey) = false ->
  Z.pos (fst (shl_align my ey (Z.min ex ey))) <= Z.pos (fst (shl_align mx ex (Z.min ex ey))).
Proof.
  intros Bx By Hlt.
  apply bounded_mantissa in Bx as (Hx53 & Hxe & Hxn).
  apply bounded_mantissa in By as (Hy53 & Hye & Hyn).
  unfold SFltb, SFcompare in Hlt.
  rewrite !shl_align_value by lia.
  destruct (Z.compare_spec ex ey) as [E | E | E].
  - subst ey. rewrite Z.min_id, Z.sub_diag. cbn [Z.pow].
    rewrite Pos.compare_cont_spec in Hlt. cbn [Pos.switch_Eq] in Hlt.
    destruct (Pos.compare_spec mx my); try discriminate; subst; lia.
  - discriminate.
  - rewrite Z.min_r by lia. rewrite Z.sub_diag. cbn [Z.pow].
    assert (H52 : 2 ^ 52 <= Z.pos mx) by (apply Hxn; lia).
    assert (H2 : 2 ^ 1 <= 2 ^ (ex - ey)) by (apply Z.pow_le_mono_r; lia).
    change (2 ^ 1) with 2 in H2.
    change (2 ^ 53) with (2 ^ 52 * 2) in Hy53. nia.
Qed.

(** Subtracting an amount that passed both withdrawal guards. *)
Lemma SFsub_not_negative (x y : spec_float) :
  valid_binary x = true -> valid_binary y = true ->
  sf_not_negative x = true -> sf_passes_positive y = true -> SFltb x y = false ->
  sf_not_negative (SF64sub x y) = true.
Proof.
  intros Vx Vy Hx Hy Hlt.
  destruct x as [sx|sx| |sx mx ex], y as [sy|sy| |sy my ey];
    try destruct sx; try destruct sy; try discriminate; try reflexivity.
  cbn [SF64sub SFsub cond_Zopp]. apply binary_normalize_not_negative.
  pose proof (aligned_mantissa_le mx my ex ey Vx Vy Hlt). lia.
Qed.

Lemma SFsub_nonneg (x y : spec_float) :
  valid_binary x = true -> valid_binary y = true ->
  sf_nonneg x = true -> sf_passes_positive y = true -> SFltb x y = false ->
  y <> S754_nan -> y <> S754_infinity false ->
  sf_nonneg (SF64sub x y) = true.
Proof.
  intros Vx Vy Hx Hy Hlt Hn Hi.
  destruct x as [sx|sx| |sx mx ex], y as [sy|sy| |sy my ey];
    try destruct sx; try destruct sy; try discriminate; try reflexivity; try congruence.
  cbn [SF64sub SFsub cond_Zopp]. apply binary_normalize_nonneg.
  pose proof (aligned_mantissa_le mx my ex ey Vx Vy Hlt). lia.
Qed.

End SpecFloatArith.

(** ** The same facts on primitive floats *)

Module Float64Facts.

Import Float64.
Local Open Scope float_scope.

Lemma zero_spec : Prim2SF 0 = S754_zero false.
Proof. reflexivity. Qed.

Lemma not_negative_spec (b : float) :
  not_negative b <-> sf_not_negative (Prim2SF b) = true.
Proof.
  unfold not_negative. rewrite ltb_spec, zero_spec, SFltb_zero.
  destruct (sf_not_negative (Prim2SF b)); cbn; intuition congruence.
Qed.

Lemma nonneg_spec (b : float) :
  nonneg b <-> sf_nonneg (Prim2SF b) = true.
Proof. unfold nonneg. rewrite leb_spec, zero_spec, SFleb_zero. reflexivity. Qed.

Lemma passes_positive_spec (x : float) :
  (x <=? 0) = false <-> sf_passes_positive (Prim2SF x) = true.
Proof.
  rewrite leb_spec, zero_spec, SFleb_zero_r.
  destruct (sf_passes_positive (Prim2SF x)); cbn; intuition congruence.
Qed.

Lemma finite_not_nan (x : float) : finite x = true -> Prim2SF x <> S754_nan.
Proof. unfold finite. destruct (Prim2SF x); easy. Qed.

Lemma finite_not_inf (x : float) (s : bool) :
  finite x = true -> Prim2SF x <> S754_infinity s.
Proof. unfold finite. destruct (Prim2SF x); easy. Qed.

Lemma nonneg_not_negative (b : float) : nonneg b -> not_negative b.
Proof. rewrite nonneg_spec, not_negative_spec. apply sf_nonneg_not_negative. Qed.

(** [accountBalance += depositAmount] after the guard [depositAmount <= 0] failed. *)
Lemma add_not_negative (b d : float) :
  not_negative b -> (d <=? 0) = false -> not_negative (b + d).
Proof.
  rewrite !not_negative_spec, passes_positive_spec, add_spec.
  apply SFadd_not_negative.
Qed.

Lemma add_nonneg (b d : float) :
  nonneg b -> finite d = true -> (d <=? 0) = false -> nonneg (b + d).
Proof.
  rewrite !nonneg_spec, passes_positive_spec, add_spec.
  intros Hb Hf Hd. apply SFadd_nonneg; auto using finite_not_nan.
Qed.

(** [accountBalance -= withdrawalAmount] after both withdrawal guards failed. *)
Lemma sub_not_negative (b w : float) :
  not_negative b -> (w <=? 0) = false -> gtb w b = false -> not_negative (b - w).
Proof.
  unfold gtb. rewrite !not_negative_spec, passes_positive_spec, ltb_spec, sub_spec.
  apply SFsub_not_negative; apply Prim2SF_valid.
Qed.

Lemma sub_nonneg (b w : float) :
  nonneg b -> finite w = true -> (w <=? 0) = false -> gtb w b = false -> nonneg (b - w).
Proof.
  unfold gtb. rewrite !nonneg_spec, passes_positive_spec, ltb_spec, sub_spec.
  intros Hb Hf Hw Hlt.
  apply SFsub_nonneg; auto using Prim2SF_valid, finite_not_nan, finite_not_inf.
Qed.

End Float64Facts.

(** ** Properties of the bank programs *)

Module BankFacts.

Import Float64 Float64Facts Bank.
Local Open Scope float_scope.

Section WithRuntime.

Context `{rt : GoRuntime}.

Lemma forever_preserves P I body rs b w :
  preserves P I body -> P eof -> Forall P rs -> I b w ->
  I (forever body rs b w).1.2 (forever body rs b w).2.
Proof.
  intros Hbody Heof Hrs. revert b w.
  induction Hrs as [| r rs Hr Hrs IH]; intros b w Hb; cbn [forever].
  - apply Hbody; assumption.
  - unfold mbind, IO_bind.
    pose proof (Hbody r b w Hr Hb) as H1.
    destruct (body r b w) as [[c b'] w']. cbn [fst snd] in H1.
    destruct c; cbn; auto.
Qed.

Lemma times_preserves P I body n rs b w :
  preserves P I body -> P eof -> Forall P rs -> I b w ->
  I (times n body rs b w).1.2 (times n body rs b w).2.
Proof.
  intros Hbody Heof. revert rs b w.
  induction n as [| n IH]; intros rs b w Hrs Hb; cbn [times].
  - exact Hb.
  - unfold mbind, IO_bind.
    assert (Hhd : P (hd eof rs)) by (destruct Hrs; assumption).
    assert (Htl : Forall P (tl rs)) by (destruct Hrs; [constructor | assumption]).
    pose proof (Hbody (hd eof rs) b w Hhd Hb) as H1.
    destruct (body (hd eof rs) b w) as [[c b'] w']. cbn [fst snd] in H1.
    destruct c; cbn; auto.
Qed.

Ltac split_choice :=
  repeat match goal with
  | |- context [Z.eqb ?c ?k] => destruct (Z.eqb c k)
  | |- context [match choice ?r with _ => _ end] => destruct (choice r)
  | |- context [match ?p with xH => _ | _ => _ end] => destruct p
  end.

Ltac run_io :=
  cbv beta iota zeta delta
    [mbind mret IO_bind IO_ret presentOptions Println_float Println Print fst snd].

(** The same through the file writes, with the record projections of
    the worlds reduced on the way, so that the printed worlds do not nest. *)
Ltac run_io_flat :=
  cbv beta iota zeta delta
    [mbind mret IO_bind IO_ret presentOptions Println_float Println Print
     writeBalanceToFile os_WriteFile store fst snd stdout files clock disk].

Ltac split_guards r b :=
  repeat match goal with
  | |- context [amount r <=? 0] => destruct (amount r <=? 0) eqn:?
  | |- context [gtb (amount r) b] => destruct (gtb (amount r) b) eqn:?
  | |- context [match ?answer with WriteOk => _ | _ => _ end] =>
      destruct answer eqn:?
  end.

Ltac body_cases r b :=
  intros r b ? ? ?;
  cbv beta zeta delta
    [nested_if_body infinite_loop_body switch_body writing_body
     never_negative never_below_zero file_tracks writable] in *;
  run_io_flat;
  match goal with w : world |- _ => fold (disk w) end;
  split_choice; split_guards r b; cbn [fst snd files disk];
  try assumption.

Lemma nested_if_body_not_negative : preserves any_round never_negative nested_if_body.
Proof.
  body_cases r b; auto using add_not_negative, sub_not_negative.
Qed.

Lemma infinite_loop_body_not_negative : preserves any_round never_negative infinite_loop_body.
Proof.
  body_cases r b; auto using add_not_negative, sub_not_negative.
Qed.

Lemma switch_body_not_negative : preserves any_round never_negative switch_body.
Proof.
  body_cases r b; auto using add_not_negative, sub_not_negative.
Qed.

Lemma writing_body_not_negative : preserves any_round never_negative writing_body.
Proof.
  body_cases r b; auto using add_not_negative, sub_not_negative.
Qed.

Lemma nested_if_body_nonneg : preserves finite_round never_below_zero nested_if_body.
Proof.
  body_cases r b; auto using add_nonneg, sub_nonneg.
Qed.

Lemma infinite_loop_body_nonneg : preserves finite_round never_below_zero infinite_loop_body.
Proof.
  body_cases r b; auto using add_nonneg, sub_nonneg.
Qed.

Lemma switch_body_nonneg : preserves finite_round never_below_zero switch_body.
Proof.
  body_cases r b; auto using add_nonneg, sub_nonneg.
Qed.

Lemma writing_body_nonneg : preserves finite_round never_below_zero writing_body.
Proof.
  body_cases r b; auto using add_nonneg, sub_nonneg.
Qed.

Lemma writing_body_file_tracks (orig : option string) :
  preserves any_round (file_tracks orig) writing_body.
Proof.
  body_cases r b;
    match goal with H : _ /\ _ |- _ => destruct H as [Hw Hf] end;
    match goal with E : disk _ _ _ = _ |- _ => rewrite Hw in E; try discriminate E end;
    (split; [exact Hw | right; apply lookup_insert_eq]).
Qed.

Lemma welcome_preserves P I (body : body_type) :
  print_stable I -> preserves P I body ->
  preserves P I (fun r b => Println "Welcome to Go Bank!" ;; body r b).
Proof.
  intros Hs H r b w Hr Hb. run_io.
  apply H; [assumption |]. apply (Hs b _ w Hb).
Qed.

Lemma finite_eof : finite_round eof.
Proof. reflexivity. Qed.

Lemma any_rounds (rs : list round) : Forall any_round rs.
Proof. apply Forall_forall. intros; exact I. Qed.

Lemma getBalanceFromFile_world (w : world) : (getBalanceFromFile w).2 = w.
Proof.
  unfold getBalanceFromFile, os_ReadFile, mbind, IO_bind.
  destruct (files w !! accountBalanceFile); [| reflexivity].
  destruct (ParseFloat s) as [f [e |]]; reflexivity.
Qed.

Lemma getBalanceFromFile_ignoring_world (w : world) :
  (getBalanceFromFile_ignoring w).2 = w.
Proof.
  unfold getBalanceFromFile_ignoring, os_ReadFile, mbind, IO_bind.
  destruct (files w !! accountBalanceFile) as [s |];
    [destruct (ParseFloat s) | destruct (ParseFloat "")]; reflexivity.
Qed.

(** The balance and the world a program ends with are produced by its
    loop body, started from the initial balance: whatever the body
    keeps, [main] keeps. *)
Lemma main_preserves (P : round -> Prop) (I : invariant)
    (p : program) (body : body_type) (rs : list round) (w : world) :
  bodyOf p = Some body -> preserves P I body -> print_stable I ->
  P eof -> Forall P rs ->
  I (initialBalance p w) w -> I (main p rs w).1 (main p rs w).2.
Proof.
  intros Hp Hbody Hs Heof Hrs Hb.
  assert (Hhd : P (hd eof rs)) by (destruct Hrs; assumption).
  destruct p; try discriminate Hp; cbn [bodyOf] in Hp; injection Hp as <-;
    cbn [main initialBalance] in *.
  - unfold nested_if_main. run_io.
    match goal with |- context [nested_if_body ?r ?b ?w'] =>
      pose proof (Hbody r b w' Hhd (Hs _ _ _ Hb)) as H;
      destruct (nested_if_body r b w') as [[c b'] w'']
    end. exact H.
  - unfold part006_main. run_io.
    match goal with |- context [times ?n ?body ?l ?b ?w'] =>
      pose proof (times_preserves P I body n l b w'
                    (welcome_preserves P I _ Hs Hbody) Heof Hrs Hb) as H;
      destruct (times n body l b w') as [[c b'] w'']
    end. exact H.
  - unfold infinite_loop_main. run_io.
    match goal with |- context [forever ?body ?l ?b ?w'] =>
      pose proof (forever_preserves P I body l b w' Hbody Heof Hrs (Hs _ _ _ Hb)) as H;
      destruct (forever body l b w') as [[c b'] w'']
    end. destruct c; cbn [fst snd] in *; try exact H; apply (Hs _ _ _ H).
  - unfold part007_main. run_io.
    match goal with |- context [forever ?body ?l ?b ?w'] =>
      pose proof (forever_preserves P I body l b w' Hbody Heof Hrs (Hs _ _ _ Hb)) as H;
      destruct (forever body l b w') as [[c b'] w'']
    end. exact H.
  - unfold writing_main. run_io.
    match goal with |- context [forever ?body ?l ?b ?w'] =>
      pose proof (forever_preserves P I body l b w' Hbody Heof Hrs (Hs _ _ _ Hb)) as H;
      destruct (forever body l b w') as [[c b'] w'']
    end. exact H.
  - unfold part003_main. run_io.
    pose proof (getBalanceFromFile_ignoring_world w) as Hw.
    destruct (getBalanceFromFile_ignoring w) as [b0 w0]. cbn [fst snd] in Hb, Hw. subst w0.
    match goal with |- context [forever ?body ?l ?b ?w'] =>
      pose proof (forever_preserves P I body l b w' Hbody Heof Hrs (Hs _ _ _ Hb)) as H;
      destruct (forever body l b w') as [[c b'] w'']
    end. exact H.
  - unfold part008_main. run_io.
    pose proof (getBalanceFromFile_world w) as Hw.
    destruct (getBalanceFromFile w) as [[b0 err] w0]. cbn [fst snd] in Hb, Hw. subst w0.
    destruct err as [e |];
    match goal with |- context [forever ?body ?l ?b ?w'] =>
      assert (Hb' : I b w') by (repeat first [exact Hb | apply Hs]);
      pose proof (forever_preserves P I body l b w' Hbody Heof Hrs Hb') as H;
      destruct (forever body l b w') as [[c b'] w'']
    end; exact H.
Qed.

Lemma bodyOf_validates (p : program) :
  validates p = true -> exists body, bodyOf p = Some body.
Proof. destruct p; try discriminate; eexists; reflexivity. Qed.

Lemma bodyOf_not_negative p body :
  bodyOf p = Some body -> preserves any_round never_negative body.
Proof.
  destruct p; intros [= <-];
    auto using nested_if_body_not_negative, infinite_loop_body_not_negative,
      switch_body_not_negative, writing_body_not_negative.
Qed.

Lemma bodyOf_nonneg p body :
  bodyOf p = Some body -> preserves finite_round never_below_zero body.
Proof.
  destruct p; intros [= <-];
    auto using nested_if_body_nonneg, infinite_loop_body_nonneg,
      switch_body_nonneg, writing_body_nonneg.
Qed.

(** C1 (amended).  In every bank program that checks the amounts it
    reads, a balance that starts out not negative is never negative
    after any sequence of menu operations: the comparison [balance < 0]
    stays false.  If moreover the initial balance is [>= 0] and every
    amount typed is a finite number, the balance stays [>= 0].  In the
    programs that write [balance.txt], on a file system that accepts
    these writes, the file is left as it was found or holds the text of
    that balance. *)
Theorem balance_never_negative (p : program) (rs : list round) (w : world) :
  validates p = true ->
  not_negative (initialBalance p w) ->
  not_negative (main p rs w).1 /\
  (nonneg (initialBalance p w) -> Forall finite_round rs -> nonneg (main p rs w).1) /\
  (bodyOf p = Some writing_body -> writable w ->
   files (main p rs w).2 !! accountBalanceFile = files w !! accountBalanceFile \/
   files (main p rs w).2 !! accountBalanceFile = Some (Sprint (main p rs w).1)).
Proof.
  intros Hp Hb. destruct (bodyOf_validates p Hp) as [body Hbody].
  split; [| split].
  - apply (main_preserves any_round never_negative p body);
      eauto using bodyOf_not_negative, any_rounds.
    + intros ? ? ? H; exact H.
    + exact I.
  - intros Hb' Hrs. apply (main_preserves finite_round never_below_zero p body);
      eauto using bodyOf_nonneg, finite_eof.
    intros ? ? ? H; exact H.
  - intros Hw Hd.
    apply (main_preserves any_round (file_tracks (files w !! accountBalanceFile)) p writing_body);
      auto using writing_body_file_tracks, any_rounds.
    + intros ? ? ? H; exact H.
    + exact I.
    + split; [exact Hd | left; reflexivity].
Qed.

(** *** Rejected and accepted amounts *)

(** C4.  One pass of the menu loop of the file-writing programs
    (22-writing-to-files, part_003, part_008).  A refused amount prints
    the rejection line and changes neither the balance nor any file; an
    accepted amount updates the balance, prints it and, when the file
    system accepts the write, overwrites [balance.txt] with the text of
    the new balance.  Either way the loop goes on. *)
Theorem rejection_is_atomic (r : round) (b : float) (w : world) :
  (rejects b r = true ->
     (writing_body r b w).1 = (Continue, b) /\
     files (writing_body r b w).2 = files w /\
     stdout (writing_body r b w).2 = stdout w ++ shown r ++ [rejectionLine r]) /\
  (accepts b r = true ->
     (writing_body r b w).1 = (Continue, newBalance b r) /\
     stdout (writing_body r b w).2 =
       stdout w ++ shown r ++ [updatedLine (newBalance b r)] /\
     (disk w accountBalanceFile (Sprint (newBalance b r)) = WriteOk ->
      files (writing_body r b w).2 =
        <[accountBalanceFile := Sprint (newBalance b r)]> (files w))).
Proof.
  unfold accepts, rejects, newBalance, shown, rejectionLine, updatedLine, writing_body.
  run_io_flat. split_choice; split_guards r b; cbn;
    (split; [intros Hrej | intros Hacc]); try discriminate;
    repeat split; intros; rewrite <- ?app_assoc; try reflexivity; discriminate.
Qed.

(** *** Reading the balance back *)

(** What the two variants of [getBalanceFromFile] return.  A missing
    file: the error-returning one (part_008) gives 1000 with an error
    and [main] goes on from 1000 after printing it; the error-ignoring
    one (part_003) gives 0.  Contents [strconv.ParseFloat] refuses: 1000
    with an error, resp. the value ParseFloat returns beside its error,
    which is 0 for a syntax error and +Inf or -Inf for a number out of
    range.  Contents that parse: the parsed value, with a nil error. *)
Lemma getBalanceFromFile_cases (w : world) :
  (files w !! accountBalanceFile = None ->
     getBalanceFromFile w = ((1000, Some findError), w) /\
     (forall rs, part008_main rs w = continues_after findError 1000 rs w) /\
     getBalanceFromFile_ignoring w = (0, w)) /\
  (forall text f e,
     files w !! accountBalanceFile = Some text -> ParseFloat text = (f, Some e) ->
     getBalanceFromFile w = ((1000, Some parseError), w) /\
     (forall rs, part008_main rs w = continues_after parseError 1000 rs w) /\
     getBalanceFromFile_ignoring w = (f, w) /\
     (e = ErrSyntax /\ f = 0 \/ e = ErrRange /\ (f = infinity \/ f = neg_infinity))) /\
  (forall text f,
     files w !! accountBalanceFile = Some text -> ParseFloat text = (f, None) ->
     getBalanceFromFile w = ((f, None), w) /\
     getBalanceFromFile_ignoring w = (f, w)).
Proof.
  assert (Hmain : forall e b rs,
    getBalanceFromFile w = ((b, Some e), w) ->
    part008_main rs w = continues_after e b rs w).
  { intros e b rs H. unfold part008_main, continues_after, mbind, IO_bind at 1.
    rewrite H. reflexivity. }
  repeat split.
  - unfold getBalanceFromFile, os_ReadFile, mbind, IO_bind. rewrite H. reflexivity.
  - intros rs. apply Hmain.
    unfold getBalanceFromFile, os_ReadFile, mbind, IO_bind. rewrite H. reflexivity.
  - unfold getBalanceFromFile_ignoring, os_ReadFile, mbind, IO_bind. rewrite H.
    rewrite ParseFloat_empty. reflexivity.
  - unfold getBalanceFromFile, os_ReadFile, mbind, IO_bind. rewrite H, H0. reflexivity.
  - intros rs. apply Hmain.
    unfold getBalanceFromFile, os_ReadFile, mbind, IO_bind. rewrite H, H0. reflexivity.
  - unfold getBalanceFromFile_ignoring, os_ReadFile, mbind, IO_bind. rewrite H, H0. reflexivity.
  - eapply ParseFloat_errors, H0.
  - unfold getBalanceFromFile, os_ReadFile, mbind, IO_bind. rewrite H, H0. reflexivity.
  - unfold getBalanceFromFile_ignoring, os_ReadFile, mbind, IO_bind. rewrite H, H0. reflexivity.
Qed.

(** Reading back what [writeBalanceToFile] wrote hands the text of
    [fmt.Sprint] to [strconv.ParseFloat] unchanged: the programs add
    nothing of their own between the two. *)
Lemma write_then_read (b : float) (w : world) :
  disk w accountBalanceFile (Sprint b) = WriteOk ->
  (getBalanceFromFile (writeBalanceToFile b w).2).1 =
    match ParseFloat (Sprint b) with
    | (f, None) => (f, None)
    | (_, Some _) => (1000, Some parseError)
    end /\
  (getBalanceFromFile_ignoring (writeBalanceToFile b w).2).1 = (ParseFloat (Sprint b)).1.
Proof.
  intros Hd.
  unfold getBalanceFromFile, getBalanceFromFile_ignoring, writeBalanceToFile,
    os_ReadFile, os_WriteFile, mbind, mret, IO_bind, IO_ret.
  rewrite Hd. cbn [fst snd files store]. rewrite lookup_insert_eq.
  destruct (ParseFloat (Sprint b)) as [f [e |]]; split; reflexivity.
Qed.

End WithRuntime.

(** A deposit of 250 and a withdrawal of 500 in 22-writing-to-files. *)
Lemma balance_never_negative_witness :
  let rs := [ {| choice := 2; amount := 250 |}; {| choice := 3; amount := 500 |} ] in
  not_negative (main WritingToFiles rs empty_world).1 /\
  nonneg (main WritingToFiles rs empty_world).1.
Proof.
  cbv zeta.
  destruct (balance_never_negative WritingToFiles
              [ {| choice := 2; amount := 250 |}; {| choice := 3; amount := 500 |} ]
              empty_world eq_refl eq_refl) as (H1 & H2 & _).
  split; [exact H1 |]. apply H2; [reflexivity |].
  repeat constructor.
Defined.

(** C1 as stated fails in three ways: part_005 adds a negative deposit
    unchecked; every checking program accepts the amount NaN, after
    which the balance is NaN and [balance >= 0] is false; and part_008
    starts from whatever number [balance.txt] holds. *)
Lemma balance_can_be_negative :
  ((main Part005 [ {| choice := 2; amount := -2000 |} ] empty_world).1 <? 0) = true /\
  (0 <=? (main WritingToFiles [ {| choice := 2; amount := nan |} ] empty_world).1) = false /\
  ((main Part008 []
      {| stdout := []; files := {[ accountBalanceFile := "-5" ]}; clock := 0%Z;
         disk := accepting |}).1 <? 0) = true.
Proof. repeat split; vm_compute; reflexivity. Qed.

(** With 1000 in the account, a withdrawal of 5000 is refused and a
    deposit of 250 is written to the file. *)
Lemma rejection_is_atomic_witness :
  let refused := {| choice := 3; amount := 5000 |} in
  let deposit := {| choice := 2; amount := 250 |} in
  ((writing_body refused 1000 empty_world).1 = (Continue, 1000) /\
   files (writing_body refused 1000 empty_world).2 = files empty_world) /\
  ((writing_body deposit 1000 empty_world).1 = (Continue, 1250) /\
   files (writing_body deposit 1000 empty_world).2 !! accountBalanceFile = Some "1250"%string).
Proof.
  cbv zeta. split.
  - destruct (rejection_is_atomic {| choice := 3; amount := 5000 |} 1000 empty_world)
      as [H _].
    destruct (H eq_refl) as (H1 & H2 & _). split; assumption.
  - destruct (rejection_is_atomic {| choice := 2; amount := 250 |} 1000 empty_world)
      as [_ H].
    destruct (H eq_refl) as (H1 & _ & H2). split; [exact H1 |].
    rewrite (H2 eq_refl). reflexivity.
Defined.

(** C5.  [balance.txt] holds [1e400], a well-formed number out of the
    float64 range, for which [strconv.ParseFloat] returns +Inf and a
    range error.  The error-ignoring [getBalanceFromFile] of part_003
    returns +Inf, where its comments promise 0.0 for invalid contents;
    the error-returning one of part_008 returns its default, 1000, with
    an error on the same file. *)
Lemma getBalanceFromFile_ignoring_out_of_range :
  let w := {| stdout := []; files := {[ accountBalanceFile := "1e400" ]};
              clock := 0%Z; disk := accepting |} in
  ParseFloat "1e400" = (infinity, Some ErrRange) /\
  getBalanceFromFile_ignoring w = (infinity, w) /\
  getBalanceFromFile w = ((1000, Some parseError), w).
Proof. cbv zeta. repeat split; vm_compute; reflexivity. Qed.

End BankFacts.

(** ** Properties of the [note] and [todo] packages *)

Module NoteFacts.

Import Strings Note.

Lemma ReplaceAll_space (s : string) :
  ReplaceAll s " " "_" = mapBytes underscore s.
Proof.
  unfold ReplaceAll. induction s as [| c s IH]; [reflexivity |].
  cbn [replace_from mapBytes String.prefix String.length Nat.sub].
  unfold underscore at 1.
  destruct (ascii_dec " " c) as [<- | Hne].
  - destruct (ascii_dec " " " ") as [_ | []]; [| reflexivity].
    replace (String.prefix "" s) with true by (destruct s; reflexivity).
    cbn. rewrite IH. reflexivity.
  - destruct (ascii_dec c " ") as [-> | _]; [congruence |].
    rewrite IH. reflexivity.
Qed.

Lemma mapBytes_compose (f g : ascii -> ascii) (s : string) :
  mapBytes f (mapBytes g s) = mapBytes (fun c => f (g c)) s.
Proof. induction s as [| c s IH]; cbn; [| rewrite IH]; reflexivity. Qed.

Lemma underscore_ASCII (s : string) :
  allBytes isASCII s = true -> allBytes isASCII (mapBytes underscore s) = true.
Proof.
  induction s as [| c s IH]; cbn; [reflexivity |].
  intros [Hc Hs]%andb_prop. rewrite IH by exact Hs.
  unfold underscore. destruct (ascii_dec c " "); [reflexivity | rewrite Hc; reflexivity].
Qed.

Section WithRuntime.

Context `{rt : GoRuntime}.

(** C2.  [note.New] fails exactly on an empty title or an empty
    content; a success carries the two arguments, a failure the zero
    Note.  [todo.New] fails exactly on an empty text. *)
Theorem New_validates (title content text : string) (w : world) :
  ((New title content w).1.2 <> None <-> title = "" \/ content = "") /\
  ((New title content w).1.2 = None ->
     Title (New title content w).1.1 = title /\
     Content (New title content w).1.1 = content) /\
  ((New title content w).1.2 <> None -> (New title content w).1.1 = zero) /\
  ((Todo.New text w).1.2 <> None <-> text = "").
Proof.
  unfold New, Todo.New.
  destruct (String.eqb_spec title "") as [-> | Ht];
    destruct (String.eqb_spec content "") as [-> | Hc];
    destruct (String.eqb_spec text "") as [-> | Hx]; cbn;
    intuition congruence.
Qed.

(** C6.  The file [Save] writes to is named
    [ToLower(ReplaceAll(title, " ", "_")) + ".json"]: every space
    replaced by an underscore, the result lower-cased, the extension
    appended.  [Save] never touches a file of another name.  When
    [json.Marshal] succeeds, [Save] hands its bytes to [os.WriteFile]
    under that name and returns what the file system answers: nil and
    the file holds the bytes; or the error of a failed open (a title
    with a slash and no such directory, say) and nothing is written.
    When [json.Marshal] fails, [Save] returns its error and writes
    nothing. *)
Theorem Save_file_name (v : snippet) (note : Note) (w : world) :
  fileNameOf (Title note) = ToLower (ReplaceAll (Title note) " " "_") +:+ ".json" /\
  ReplaceAll (Title note) " " "_" = mapBytes underscore (Title note) /\
  (allBytes isASCII (Title note) = true -> fileNameOf (Title note) = derivedName (Title note)) /\
  (forall name, name <> fileNameOf (Title note) ->
     files (Save v note w).2 !! name = files w !! name) /\
  (forall json, Json.Marshal (fields v note) = inl json ->
     (disk w (fileNameOf (Title note)) json = WriteOk ->
        Save v note w = (None, store (fileNameOf (Title note)) json w)) /\
     (forall e, disk w (fileNameOf (Title note)) json = OpenFails e ->
        Save v note w = (Some e, w)) /\
     (forall e n, disk w (fileNameOf (Title note)) json = WriteFails e n ->
        Save v note w =
          (Some e, store (fileNameOf (Title note)) (substring 0 n json) w))) /\
  (forall err, Json.Marshal (fields v note) = inr err -> Save v note w = (Some err, w)).
Proof.
  split; [reflexivity |]. split; [apply ReplaceAll_space |]. split; [| split; [| split]].
  - intros Hascii. unfold fileNameOf, derivedName, ToLower.
    rewrite ReplaceAll_space, underscore_ASCII by exact Hascii.
    rewrite mapBytes_compose. reflexivity.
  - intros name Hname. unfold Save, os_WriteFile, mret, IO_ret.
    destruct (Json.Marshal (fields v note)) as [json | err]; [| reflexivity].
    destruct (disk w (fileNameOf (Title note)) json); cbn [snd files store];
      try reflexivity; apply lookup_insert_ne; congruence.
  - intros json Hjson. unfold Save, os_WriteFile. rewrite Hjson.
    repeat split; intros; match goal with H : disk _ _ _ = _ |- _ => rewrite H end;
      reflexivity.
  - intros err Herr. unfold Save. rewrite Herr. reflexivity.
Qed.

Lemma invokeAll_id (cs : list call) (n : Note) (w : world) :
  (invokeAll cs n w).1 = n.
Proof.
  revert w. induction cs as [| c cs IH]; intros w; [reflexivity |].
  cbn [invokeAll]. unfold mbind, IO_bind.
  destruct (invoke c n w) as [n' w'] eqn:E.
  assert (n' = n) as ->.
  { destruct c; unfold invoke, mbind, IO_bind, mret, IO_ret in E.
    - destruct (Display n w). congruence.
    - destruct (Save v n w). congruence. }
  apply IH.
Qed.

(** C7.  A Note that [New] returns without error has a non-empty
    title, a non-empty content and the time read from the clock during
    the call; whatever [Display] and [Save] calls follow, the caller's
    Note stays the same value. *)
Theorem note_invariant (title content : string) (w w' : world) (n : Note) :
  New title content w = ((n, None), w') ->
  Title n <> "" /\ Content n <> "" /\ CreatedAt n = clock w /\
  (forall cs w0, (invokeAll cs n w0).1 = n) /\
  (forall cs w0,
     Title (invokeAll cs n w0).1 <> "" /\ Content (invokeAll cs n w0).1 <> "" /\
     CreatedAt (invokeAll cs n w0).1 = clock w).
Proof.
  unfold New.
  destruct (String.eqb_spec title "") as [-> | Ht];
    destruct (String.eqb_spec content "") as [-> | Hc]; cbn; try discriminate.
  intros [= <- <-]. cbn.
  repeat split; intros; rewrite ?invokeAll_id; cbn; auto.
Qed.

Lemma append_assoc (a b c : string) : (a +:+ b) +:+ c = a +:+ (b +:+ c).
Proof.
  induction a as [| x a IH]; [reflexivity |].
  change (String x ((a +:+ b) +:+ c) = String x (a +:+ (b +:+ c))).
  rewrite IH. reflexivity.
Qed.

(** [json.Marshal] of a Note whose time marshals to [created]: the
    text, in each copy of the package. *)
Lemma Marshal_Note (note : Note) (created : string) :
  Time_MarshalJSON (CreatedAt note) = inl created ->
  Json.Marshal (fields StructTags note) =
    inl (object3 "title" (json_string (Title note))
                 "content" (json_string (Content note))
                 "created_at" created) /\
  Json.Marshal (fields Fixes note) =
    inl (object3 "Title" (json_string (Title note))
                 "Content" (json_string (Content note))
                 "CreatedAt" created).
Proof.
  intros Ht.
  unfold Json.Marshal, object3.
  cbn [fields Json.members Json.encodeValue Json.fieldValue Json.key Json.jsonTag
       Json.goName Json.joinComma].
  rewrite Ht. cbn [Json.joinComma]. unfold Json.member.
  split; f_equal; rewrite !append_assoc; reflexivity.
Qed.

(** C8.  The JSON text that [Save] hands to the file system, for a
    Note whose time marshals to [created]: an object of exactly three
    members, with the keys [title], [content], [created_at] in the copy
    with struct tags and the Go field names [Title], [Content],
    [CreatedAt] in the copy without, each followed by the encoding of
    the field; when the file system accepts the write, the file holds
    exactly this text. *)
Theorem Save_json_keys (note : Note) (created : string) (w : world) :
  Time_MarshalJSON (CreatedAt note) = inl created ->
  let tagged :=
    "{" +:+ quote +:+ "title" +:+ quote +:+ ":" +:+ json_string (Title note) +:+ "," +:+
            quote +:+ "content" +:+ quote +:+ ":" +:+ json_string (Content note) +:+ "," +:+
            quote +:+ "created_at" +:+ quote +:+ ":" +:+ created +:+ "}" in
  let untagged :=
    "{" +:+ quote +:+ "Title" +:+ quote +:+ ":" +:+ json_string (Title note) +:+ "," +:+
            quote +:+ "Content" +:+ quote +:+ ":" +:+ json_string (Content note) +:+ "," +:+
            quote +:+ "CreatedAt" +:+ quote +:+ ":" +:+ created +:+ "}" in
  Save StructTags note w = os_WriteFile (fileNameOf (Title note)) tagged w /\
  Save Fixes note w = os_WriteFile (fileNameOf (Title note)) untagged w /\
  (disk w (fileNameOf (Title note)) tagged = WriteOk ->
     (Save StructTags note w).1 = None /\
     files (Save StructTags note w).2 !! fileNameOf (Title note) = Some tagged) /\
  (disk w (fileNameOf (Title note)) untagged = WriteOk ->
     (Save Fixes note w).1 = None /\
     files (Save Fixes note w).2 !! fileNameOf (Title note) = Some untagged).
Proof.
  intros Ht tagged untagged.
  destruct (Marshal_Note note created Ht) as [H1 H2].
  assert (S1 : Save StructTags note w = os_WriteFile (fileNameOf (Title note)) tagged w).
  { unfold Save. rewrite H1. reflexivity. }
  assert (S2 : Save Fixes note w = os_WriteFile (fileNameOf (Title note)) untagged w).
  { unfold Save. rewrite H2. reflexivity. }
  split; [exact S1 |]. split; [exact S2 |].
  split; intros Hd; [rewrite S1 | rewrite S2]; unfold os_WriteFile; rewrite Hd;
    (split; [reflexivity | apply lookup_insert_eq]).
Qed.

End WithRuntime.

Lemma New_validates_witness :
  Title (New "Shopping" "Buy milk" empty_world).1.1 = "Shopping" /\
  (New "" "Buy milk" empty_world).1.1 = zero.
Proof.
  split.
  - destruct (New_validates "Shopping" "Buy milk" "Call dentist" empty_world)
      as (_ & H & _).
    apply H. reflexivity.
  - destruct (New_validates "" "Buy milk" "" empty_world) as (_ & _ & H & _).
    apply H. discriminate.
Defined.

(** A title with spaces and capitals, saved on a file system that
    accepts the write; and a title with a slash, which [New] accepts,
    saved where the directory does not exist. *)
Lemma Save_file_name_witness :
  let list := {| Title := "My Shopping List"; Content := "Buy milk"; CreatedAt := 0 |} in
  let today := {| Title := "To Do/Today"; Content := "Buy milk"; CreatedAt := 0 |} in
  fileNameOf "My Shopping List" = "my_shopping_list.json" /\
  (Save StructTags list empty_world).1 = None /\
  dom (files (Save StructTags list empty_world).2) = {[ "my_shopping_list.json" ]} /\
  Save Fixes today flat_world =
    (Some (PathError "open" "to_do/today.json" "no such file or directory"), flat_world).
Proof.
  cbv zeta.
  destruct (Save_file_name (rt := sample_runtime) StructTags
              {| Title := "My Shopping List"; Content := "Buy milk"; CreatedAt := 0 |}
              empty_world) as (_ & _ & H3 & _ & H5 & _).
  destruct (H5 _ eq_refl) as (Hok & _).
  destruct (Save_file_name (rt := sample_runtime) Fixes
              {| Title := "To Do/Today"; Content := "Buy milk"; CreatedAt := 0 |}
              flat_world) as (_ & _ & _ & _ & H5' & _).
  destruct (H5' _ eq_refl) as (_ & Hfail & _).
  split; [exact (H3 eq_refl) |].
  split; [rewrite (Hok eq_refl); reflexivity |].
  split; [rewrite (Hok eq_refl); vm_compute; reflexivity |].
  exact (Hfail _ eq_refl).
Defined.

Lemma note_invariant_witness :
  let n := {| Title := "Shopping"; Content := "Buy milk"; CreatedAt := 0 |} in
  Title n <> "" /\ Content n <> "" /\ CreatedAt n = clock empty_world /\
  (forall cs w0, (invokeAll cs n w0).1 = n) /\
  (forall cs w0,
     Title (invokeAll cs n w0).1 <> "" /\ Content (invokeAll cs n w0).1 <> "" /\
     CreatedAt (invokeAll cs n w0).1 = clock empty_world).
Proof.
  exact (note_invariant "Shopping" "Buy milk" empty_world empty_world _ eq_refl).
Defined.

(** The file of a saved note, character by character. *)
Lemma Save_json_keys_witness :
  let n := {| Title := "Shopping"; Content := "Buy milk"; CreatedAt := 0 |} in
  files (Save StructTags n empty_world).2 !! "shopping.json" =
    Some ("{" +:+ quote +:+ "title" +:+ quote +:+ ":" +:+
                  quote +:+ "Shopping" +:+ quote +:+ "," +:+
                  quote +:+ "content" +:+ quote +:+ ":" +:+
                  quote +:+ "Buy milk" +:+ quote +:+ "," +:+
                  quote +:+ "created_at" +:+ quote +:+ ":" +:+
                  quote +:+ "0001-01-01T00:00:00Z" +:+ quote +:+ "}") /\
  files (Save Fixes n empty_world).2 !! "shopping.json" =
    Some ("{" +:+ quote +:+ "Title" +:+ quote +:+ ":" +:+
                  quote +:+ "Shopping" +:+ quote +:+ "," +:+
                  quote +:+ "Content" +:+ quote +:+ ":" +:+
                  quote +:+ "Buy milk" +:+ quote +:+ "," +:+
                  quote +:+ "CreatedAt" +:+ quote +:+ ":" +:+
                  quote +:+ "0001-01-01T00:00:00Z" +:+ quote +:+ "}").
Proof.
  cbv zeta.
  destruct (Save_json_keys (rt := sample_runtime)
              {| Title := "Shopping"; Content := "Buy milk"; CreatedAt := 0 |}
              (quote +:+ "0001-01-01T00:00:00Z" +:+ quote) empty_world eq_refl)
    as (_ & _ & H3 & H4).
  split; [exact (proj2 (H3 eq_refl)) | exact (proj2 (H4 eq_refl))].
Defined.

End NoteFacts.

(** ** Properties of the [user] package *)

Module UserFacts.

Import User.

(** C9.  [ClearUserName] empties both names and keeps [birthDate] and
    [createdAt]; on an [Admin] it acts on the embedded [User] and keeps
    [email] and [password]; a second call changes nothing. *)
Theorem ClearUserName_frame (u : User) (a : Admin) :
  firstName (ClearUserName u) = "" /\ lastName (ClearUserName u) = "" /\
  birthDate (ClearUserName u) = birthDate u /\
  createdAt (ClearUserName u) = createdAt u /\
  ClearUserName (ClearUserName u) = ClearUserName u /\
  embedded (Admin_ClearUserName a) = ClearUserName (embedded a) /\
  email (Admin_ClearUserName a) = email a /\
  password (Admin_ClearUserName a) = password a /\
  Admin_ClearUserName (Admin_ClearUserName a) = Admin_ClearUserName a.
Proof. repeat split. Qed.

(** C10.  [NewAdmin] always returns an [Admin] with the given email
    and password and the fixed names ADMIN, ADMIN and birth date [---];
    [New] returns nil and an error as soon as one argument is empty, and
    a [User] with the three arguments otherwise. *)
Theorem NewAdmin_never_fails (mail pass fn ln bd : string) (w : world) :
  NewAdmin mail pass w =
    ({| email := mail; password := pass;
        embedded := {| firstName := "ADMIN"; lastName := "ADMIN";
                       birthDate := "---"; createdAt := clock w |} |}, w) /\
  (fn = "" \/ ln = "" \/ bd = "" ->
     New fn ln bd w =
       ((None, Some (errors_New "First name, last name and birthdate are required.")), w)) /\
  (fn <> "" -> ln <> "" -> bd <> "" ->
     New fn ln bd w =
       ((Some {| firstName := fn; lastName := ln; birthDate := bd; createdAt := clock w |},
         None), w)).
Proof.
  split; [reflexivity |]. unfold New.
  destruct (String.eqb_spec fn "") as [-> | Hf];
    destruct (String.eqb_spec ln "") as [-> | Hl];
    destruct (String.eqb_spec bd "") as [-> | Hb]; cbn;
    split; intros; try reflexivity; intuition congruence.
Qed.

Lemma NewAdmin_never_fails_witness :
  firstName (embedded (NewAdmin "" "" empty_world).1) = "ADMIN" /\
  (New "" "Doe" "01/01/1990" empty_world).1.1 = None.
Proof.
  destruct (NewAdmin_never_fails "" "" "" "Doe" "01/01/1990" empty_world) as (H1 & H2 & _).
  split.
  - rewrite H1. reflexivity.
  - rewrite H2 by (left; reflexivity). reflexivity.
Defined.

End UserFacts.

(** ** More on the bank programs: sessions, files, restarts *)

Module BankSessionFacts.

Import Float64 Bank BankSession.
Local Open Scope float_scope.

Ltac run_io :=
  cbv beta iota zeta delta
    [mbind mret IO_bind IO_ret presentOptions Println_float Println Print
     writeBalanceToFile os_WriteFile store fst snd stdout files clock disk].

Ltac unfold_transcript :=
  cbv beta iota zeta delta
    [worldAfter printedBy filesAfter controlOf applyRound menuChoice accepts rejects
     newBalance onRefusal onLeave goodbye writesFile menuLines shown rejectionLine
     updatedLine andb negb orb].

Ltac run_body r b :=
  run_io; unfold_transcript; run_io;
  destruct (choice r) as [| [[q | q |] | [q | q |] |] | q];
  cbv beta iota zeta delta [Z.eqb Pos.eqb];
  try destruct (amount r <=? 0) eqn:Hle;
  try destruct (gtb (amount r) b) eqn:Hgt;
  cbv beta iota zeta delta [andb negb orb];
  try match goal with
      | |- context [match ?answer with WriteOk => _ | _ => _ end] => destruct answer
      end;
  rewrite <- !app_assoc; reflexivity.

(** Runs the [Println] calls at the head of the goal, one by one. *)
Ltac step_prints :=
  repeat match goal with
  | |- context [Println ?s ?w] =>
      let u := fresh "u" in let w' := fresh "w" in
      destruct (Println s w) as [u w']
  end.

Section WithRuntime.

Context `{rt : GoRuntime}.

(** *** One pass of each loop body, in closed form *)

Lemma nested_if_body_run (r : round) (b : float) (w : world) :
  nested_if_body r b w =
    ((controlOf NestedIf r b, applyRound b r), worldAfter NestedIf r b w).
Proof. unfold nested_if_body. run_body r b. Qed.

Lemma infinite_loop_body_run (r : round) (b : float) (w : world) :
  infinite_loop_body r b w =
    ((controlOf InfiniteLoop r b, applyRound b r), worldAfter InfiniteLoop r b w).
Proof. unfold infinite_loop_body. run_body r b. Qed.

Lemma switch_body_run (r : round) (b : float) (w : world) :
  switch_body r b w =
    ((controlOf Part007 r b, applyRound b r), worldAfter Part007 r b w).
Proof. unfold switch_body. run_body r b. Qed.

Lemma writing_body_run (r : round) (b : float) (w : world) :
  writing_body r b w =
    ((controlOf WritingToFiles r b, applyRound b r), worldAfter WritingToFiles r b w).
Proof. unfold writing_body. run_body r b. Qed.

Lemma body_run (p : program) (body : body_type) (r : round) (b : float) (w : world) :
  bodyOf p = Some body ->
  body r b w = ((controlOf p r b, applyRound b r), worldAfter p r b w).
Proof.
  destruct p; intros [= <-].
  - exact (nested_if_body_run r b w).
  - exact (nested_if_body_run r b w).
  - exact (infinite_loop_body_run r b w).
  - exact (switch_body_run r b w).
  - exact (writing_body_run r b w).
  - exact (writing_body_run r b w).
  - exact (writing_body_run r b w).
Qed.

(** *** Facts on the closed form *)

Lemma menuChoice_cases (r : round) :
  (menuChoice r = true /\ (choice r = 1 \/ choice r = 2 \/ choice r = 3)%Z) \/
  (menuChoice r = false /\ rejects 0 r = false /\ choice r <> 1%Z /\
   choice r <> 2%Z /\ choice r <> 3%Z).
Proof.
  unfold menuChoice, rejects.
  destruct (choice r) as [| [[q | q |] | [q | q |] |] | q]; cbn;
    first [ left; split; [reflexivity | lia] | right; repeat split; lia ].
Qed.

Lemma leaving_round (p : program) (r : round) (b : float) :
  menuChoice r = false ->
  controlOf p r b = onLeave p /\ applyRound b r = b /\
  printedBy p r b = menuLines ++ goodbye p /\
  forall w, filesAfter p r b w = files w.
Proof.
  unfold controlOf, applyRound, printedBy, filesAfter, accepts, menuChoice.
  destruct (choice r) as [| [[q | q |] | [q | q |] |] | q]; cbn; intros H;
    try discriminate H; repeat split; intros; rewrite ?andb_false_r; reflexivity.
Qed.

Lemma rejected_round (p : program) (r : round) (b : float) :
  rejects b r = true ->
  controlOf p r b = onRefusal p r /\ applyRound b r = b /\
  forall w, filesAfter p r b w = files w.
Proof.
  unfold controlOf, applyRound, filesAfter, accepts, menuChoice.
  intros H. assert (H' := H). unfold rejects in H'.
  destruct (choice r) as [| [[q | q |] | [q | q |] |] | q]; try discriminate H';
    rewrite H; cbn; repeat split; intros; rewrite ?andb_false_r; reflexivity.
Qed.

Lemma applyRound_not_accepted (b : float) (r : round) :
  accepts b r = false -> applyRound b r = b.
Proof. unfold applyRound. intros ->. reflexivity. Qed.

Lemma filesAfter_lookup (p : program) (r : round) (b : float) (w : world)
    (name : string) :
  name <> accountBalanceFile -> filesAfter p r b w !! name = files w !! name.
Proof.
  intros Hname. unfold filesAfter, os_WriteFile.
  destruct (writesFile p && accepts b r); [| reflexivity].
  destruct (disk w accountBalanceFile _); cbn [snd files store]; try reflexivity;
    apply lookup_insert_ne; congruence.
Qed.

Lemma filesAfter_not_writing (p : program) (r : round) (b : float) (w : world) :
  writesFile p = false -> filesAfter p r b w = files w.
Proof. unfold filesAfter. intros ->. reflexivity. Qed.

(** *** The balance of a [switch] program is a fold *)

Lemma switches_control (p : program) (r : round) (b : float) :
  switches p = true -> controlOf p r b = if menuChoice r then Continue else Return.
Proof.
  unfold controlOf. destruct p; try discriminate; intros _; cbn;
    destruct (menuChoice r), (rejects b r); reflexivity.
Qed.

Lemma forever_fold (p : program) (body : body_type) (rs : list round) (b : float) (w : world) :
  switches p = true -> bodyOf p = Some body ->
  (forever body rs b w).1.2 = fold_left applyRound (session rs) b.
Proof.
  intros Hp Hbody. revert b w.
  induction rs as [| r rs IH]; intros b w; cbn [forever session].
  - rewrite (body_run p body _ _ _ Hbody). cbn [fst snd].
    apply (leaving_round p eof b). reflexivity.
  - unfold mbind, IO_bind. rewrite (body_run p body _ _ _ Hbody).
    rewrite (switches_control p r b Hp).
    destruct (menuChoice r) eqn:Hr; [apply IH |].
    cbn. apply (leaving_round p r b Hr).
Qed.

Lemma switches_bodyOf (p : program) :
  switches p = true -> exists body, bodyOf p = Some body.
Proof. destruct p; try discriminate; intros _; eexists; reflexivity. Qed.

(** The balance a program ends with is the one its loop ends with. *)
Lemma main_forever (p : program) (body : body_type) (rs : list round) (w : world) :
  loopsForever p = true -> bodyOf p = Some body ->
  exists w', (main p rs w).1 = (forever body rs (initialBalance p w) w').1.2.
Proof.
  intros Hp Hbody.
  destruct p; try discriminate Hp; injection Hbody as <-; cbn [main initialBalance];
    unfold infinite_loop_main, part007_main, writing_main, part003_main, part008_main;
    unfold mbind, IO_bind.
  - destruct (Println "Welcome to Go Bank!" w) as [u w1]. exists w1.
    destruct (forever infinite_loop_body rs 1000 w1) as [[c b'] w'']. destruct c; reflexivity.
  - destruct (Println "Welcome to Go Bank!" w) as [u w1]. exists w1.
    destruct (forever switch_body rs 1000 w1) as [[c b'] w'']. reflexivity.
  - destruct (Println "Welcome to Go Bank!" w) as [u w1]. exists w1.
    destruct (forever writing_body rs 1000 w1) as [[c b'] w'']. reflexivity.
  - destruct (getBalanceFromFile_ignoring w) as [b0 w0]. cbn [fst].
    destruct (Println "Welcome to Go Bank!" w0) as [u w1]. exists w1.
    destruct (forever writing_body rs b0 w1) as [[c b'] w'']. reflexivity.
  - destruct (getBalanceFromFile w) as [[b0 err] w0]. cbn [fst].
    destruct err as [e |]; cbn [mret IO_ret]; step_prints;
      match goal with |- context [forever _ _ _ ?w2] => exists w2 end;
      destruct (forever writing_body rs b0 _) as [[c b'] w'']; reflexivity.
Qed.

(** A [switch] program computes its balance by folding the accepted
    amounts over the rounds typed before the menu is left. *)
Theorem balance_is_fold (p : program) (rs : list round) (w : world) :
  switches p = true ->
  (main p rs w).1 = fold_left applyRound (session rs) (initialBalance p w).
Proof.
  intros Hp. destruct (switches_bodyOf p Hp) as [body Hbody].
  destruct (main_forever p body rs w) as [w' ->]; [destruct p; easy | exact Hbody |].
  apply (forever_fold p); assumption.
Qed.

(** *** Leaving the menu *)

Lemma body_leaves (p : program) (body : body_type) (r : round) (b : float) (w : world) :
  bodyOf p = Some body -> menuChoice r = false -> body r b w = body eof b w.
Proof.
  intros Hbody Hr. rewrite !(body_run p body _ _ _ Hbody). unfold worldAfter.
  destruct (leaving_round p r b Hr) as (-> & -> & -> & ->).
  destruct (leaving_round p eof b eq_refl) as (-> & -> & -> & ->).
  reflexivity.
Qed.

Lemma forever_leaves (p : program) (body : body_type) (rs rest : list round) (r : round)
    (b : float) (w : world) :
  loopsForever p = true -> bodyOf p = Some body -> menuChoice r = false ->
  forever body (rs ++ r :: rest) b w = forever body rs b w.
Proof.
  intros Hp Hbody Hr. revert b w.
  induction rs as [| r0 rs IH]; intros b w; cbn [forever app].
  - unfold mbind, IO_bind. rewrite <- (body_leaves p body r b w Hbody Hr).
    rewrite (body_run p body _ _ _ Hbody).
    destruct (leaving_round p r b Hr) as (-> & _).
    destruct p; try discriminate Hp; reflexivity.
  - unfold mbind, IO_bind. destruct (body r0 b w) as [[c b'] w'].
    destruct c; [apply IH | reflexivity | reflexivity].
Qed.

(** In the programs that loop with [for { ... }], any choice other than
    1, 2 or 3 ends the session exactly as the end of the input does:
    what is typed after it is never read. *)
Theorem exit_ends_session (p : program) (rs rest : list round) (r : round) (w : world) :
  loopsForever p = true -> menuChoice r = false ->
  main p (rs ++ r :: rest) w = main p rs w.
Proof.
  intros Hp Hr.
  assert (H : forall body b w', bodyOf p = Some body ->
            forever body (rs ++ r :: rest) b w' = forever body rs b w').
  { intros body b w' Hbody. apply (forever_leaves p); assumption. }
  destruct p; try discriminate Hp; cbn [main];
    unfold infinite_loop_main, part007_main, writing_main, part003_main, part008_main;
    unfold mbind, IO_bind.
  - destruct (Println "Welcome to Go Bank!" w) as [u w1]. rewrite H; reflexivity.
  - destruct (Println "Welcome to Go Bank!" w) as [u w1]. rewrite H; reflexivity.
  - destruct (Println "Welcome to Go Bank!" w) as [u w1]. rewrite H; reflexivity.
  - destruct (getBalanceFromFile_ignoring w) as [b0 w0].
    destruct (Println "Welcome to Go Bank!" w0) as [u w1]. rewrite H; reflexivity.
  - destruct (getBalanceFromFile w) as [[b0 err] w0].
    destruct err as [e |]; cbn [mret IO_ret]; step_prints; rewrite H; reflexivity.
Qed.

(** *** Files *)

Lemma body_only_balance_file (w0 : world) (p : program) (body : body_type) :
  bodyOf p = Some body -> preserves any_round (only_balance_file w0) body.
Proof.
  intros Hbody r b w _ Hf. rewrite (body_run p body _ _ _ Hbody).
  unfold only_balance_file. cbn [fst snd worldAfter files].
  intros name Hname. rewrite filesAfter_lookup by exact Hname. auto.
Qed.

Lemma body_files_untouched (w0 : world) (p : program) (body : body_type) :
  bodyOf p = Some body -> writesFile p = false ->
  preserves any_round (files_untouched w0) body.
Proof.
  intros Hbody Hp r b w _ Hf. rewrite (body_run p body _ _ _ Hbody).
  unfold files_untouched in *. cbn [fst snd worldAfter files].
  rewrite filesAfter_not_writing by exact Hp. exact Hf.
Qed.

Lemma body_persisted (b0 : float) (orig : option string) (p : program) (body : body_type) :
  bodyOf p = Some body -> writesFile p = true ->
  preserves any_round (persisted b0 orig) body.
Proof.
  intros Hbody Hp r b w _ [Hw H]. rewrite (body_run p body _ _ _ Hbody).
  unfold persisted in *. cbn [fst snd worldAfter files].
  split; [exact Hw |].
  unfold filesAfter, applyRound, os_WriteFile. rewrite Hp. cbn [andb].
  destruct (accepts b r); [| exact H].
  rewrite Hw. right. apply lookup_insert_eq.
Qed.

Lemma part005_files (rs : list round) (w : world) :
  files (part005_main rs w).2 = files w.
Proof.
  unfold part005_main. run_io.
  destruct (choice (hd eof rs) =? 1)%Z; [reflexivity |].
  destruct (choice (hd eof rs) =? 2)%Z; reflexivity.
Qed.

(** No bank program creates or changes any file other than
    [balance.txt], and the programs without [writeBalanceToFile] change
    no file at all. *)
Theorem only_balance_file_written (p : program) (rs : list round) (w : world) :
  (forall name, name <> accountBalanceFile ->
     files (main p rs w).2 !! name = files w !! name) /\
  (writesFile p = false -> files (main p rs w).2 = files w).
Proof.
  assert (Hany : Forall any_round rs) by (apply Forall_forall; intros; exact I).
  destruct (bodyOf p) as [body |] eqn:Hbody.
  - split.
    + assert (H : only_balance_file w (main p rs w).1 (main p rs w).2).
      { apply (BankFacts.main_preserves any_round (only_balance_file w) p body);
          [ exact Hbody | apply (body_only_balance_file w p), Hbody
          | intros ? ? ? H; exact H | exact I | exact Hany | intros ? ?; reflexivity ]. }
      exact H.
    + intros Hp.
      apply (BankFacts.main_preserves any_round (files_untouched w) p body);
        [ exact Hbody | apply (body_files_untouched w p); assumption
        | intros ? ? ? H; exact H | exact I | exact Hany | reflexivity ].
  - destruct p; try discriminate Hbody. cbn [main].
    rewrite part005_files. auto.
Qed.

(** *** Restarting *)

Lemma initialBalance_files (p : program) (w w' : world) :
  files w' !! accountBalanceFile = files w !! accountBalanceFile ->
  initialBalance p w' = initialBalance p w.
Proof.
  intros H. destruct p; try reflexivity; cbn [initialBalance];
    unfold getBalanceFromFile_ignoring, getBalanceFromFile, os_ReadFile, mbind, IO_bind;
    rewrite H; destruct (files w !! accountBalanceFile) as [t |].
  - destruct (ParseFloat t); reflexivity.
  - destruct (ParseFloat ""); reflexivity.
  - destruct (ParseFloat t) as [f [e |]]; reflexivity.
  - reflexivity.
Qed.

(** The programs that read [balance.txt] at start pick up where the
    last run stopped: started again in the world a run leaves behind,
    they begin with the balance that run ended with, provided the file
    system accepted the writes and the text [fmt.Sprint] gives for that
    balance parses back to it. *)
Theorem balance_survives_restart (p : program) (rs : list round) (w : world) :
  readsFile p = true -> writable w ->
  ParseFloat (Sprint (main p rs w).1) = ((main p rs w).1, None) ->
  initialBalance p (main p rs w).2 = (main p rs w).1.
Proof.
  intros Hp Hd Hparse.
  assert (Hbody : bodyOf p = Some writing_body) by (destruct p; try discriminate; reflexivity).
  assert (Hinv : persisted (initialBalance p w) (files w !! accountBalanceFile)
                   (main p rs w).1 (main p rs w).2).
  { apply (BankFacts.main_preserves any_round _ p writing_body);
      [ exact Hbody
      | apply (body_persisted _ _ p); [exact Hbody | destruct p; easy]
      | intros ? ? ? H; exact H
      | exact I
      | apply Forall_forall; intros; exact I
      | split; [exact Hd | left; split; reflexivity] ]. }
  destruct Hinv as [_ [[Hfile Hb] | Hfile]].
  - rewrite Hb. apply initialBalance_files, Hfile.
  - destruct p; try discriminate Hp; cbn [initialBalance];
      unfold getBalanceFromFile_ignoring, getBalanceFromFile, os_ReadFile, mbind, IO_bind;
      rewrite Hfile, Hparse; reflexivity.
Qed.

(** *** Refused amounts *)

(** In every checking program a refused amount changes neither the
    balance nor any file; the programs differ only in whether they go
    on afterwards. *)
Theorem refused_amount_changes_nothing
    (p : program) (body : body_type) (r : round) (b : float) (w : world) :
  bodyOf p = Some body -> rejects b r = true ->
  (body r b w).1 = (onRefusal p r, b) /\ files (body r b w).2 = files w.
Proof.
  intros Hbody Hrej. rewrite (body_run p body _ _ _ Hbody).
  destruct (rejected_round p r b Hrej) as (Hc & Hb & Hf).
  cbn [fst snd worldAfter files]. rewrite Hc, Hb, Hf. split; reflexivity.
Qed.

(** *** part_006: Exit does not exit *)

Lemma welcome_body_outcome (r : round) (b : float) (w : world) :
  ((Println "Welcome to Go Bank!" ;; nested_if_body r b) w).1 =
    (controlOf Part006 r b, applyRound b r).
Proof.
  unfold mbind, IO_bind. destruct (Println "Welcome to Go Bank!" w) as [u w1].
  rewrite nested_if_body_run. reflexivity.
Qed.

Lemma times_S (n : nat) (body : body_type) (rs : list round) (b : float) (w : world) :
  times (S n) body rs b w =
    let '(c, b1, w1) := body (hd eof rs) b w in
    match c with
    | Continue => times n body (tl rs) b1 w1
    | _ => ((c, b1), w1)
    end.
Proof.
  cbn [times]. unfold mbind, IO_bind.
  destruct (body (hd eof rs) b w) as [[c b1] w1]. destruct c; reflexivity.
Qed.

Lemma times_extra_pass (body : body_type) (n : nat) (rs : list round) (b : float)
    (w w' : world) :
  (forall r b w, (body r b w).1 = (controlOf Part006 r b, applyRound b r)) ->
  (length rs <= n)%nat ->
  (times (S n) body rs b w).1.2 = (times n body rs b w').1.2.
Proof.
  intros Hbody. revert rs b w w'.
  induction n as [| n IH]; intros rs b w w' Hlen.
  - destruct rs; [| cbn in Hlen; lia]. cbn [times hd tl]. unfold mbind, IO_bind.
    pose proof (Hbody eof b w) as H. destruct (body eof b w) as [[c b1] w1].
    cbn [fst] in H. injection H as -> ->. reflexivity.
  - rewrite (times_S (S n) body rs b w), (times_S n body rs b w').
    pose proof (Hbody (hd eof rs) b w) as H. pose proof (Hbody (hd eof rs) b w') as H'.
    destruct (body (hd eof rs) b w) as [[c b1] w1].
    destruct (body (hd eof rs) b w') as [[c' b1'] w1'].
    cbn [fst] in H, H'. rewrite <- H in H'. injection H' as -> ->.
    destruct c; try reflexivity.
    apply IH. destruct rs; cbn in *; lia.
Qed.

(** In part_006 the Exit entry (like any choice other than 1, 2, 3)
    does not stop the program: apart from the pass it uses up, the
    rounds typed after it are handled as if it had not been typed. *)
Theorem part006_exit_does_not_exit (r : round) (rs : list round) (w : world) :
  menuChoice r = false -> (length rs < 200)%nat ->
  (part006_main (r :: rs) w).1 = (part006_main rs w).1.
Proof.
  intros Hr Hlen. unfold part006_main.
  set (body := fun (r : round) (b : float) =>
                 Println "Welcome to Go Bank!" ;; nested_if_body r b).
  assert (Hbody : forall r b w, (body r b w).1 = (controlOf Part006 r b, applyRound b r))
    by (intros; apply welcome_body_outcome).
  change 200%nat with (S 199).
  assert (H1 : (times (S 199) body (r :: rs) 1000 w).1.2 =
               (times 199 body rs 1000 (body r 1000 w).2).1.2).
  { rewrite times_S. cbn [hd tl].
    pose proof (Hbody r 1000 w) as H. destruct (body r 1000 w) as [[c b1] w1].
    cbn [fst snd] in *. destruct (leaving_round Part006 r 1000 Hr) as (Hc & Hb & _).
    rewrite Hc, Hb in H. injection H as -> ->. reflexivity. }
  pose proof (times_extra_pass body 199 rs 1000 w (body r 1000 w).2 Hbody) as H2.
  unfold mbind, IO_bind.
  destruct (times (S 199) body (r :: rs) 1000 w) as [[c1 b1] w1].
  destruct (times (S 199) body rs 1000 w) as [[c2 b2] w2].
  cbn [fst snd] in *. rewrite H1, H2 by lia. reflexivity.
Qed.

End WithRuntime.

#[local] Existing Instance sample_runtime.

(** 22-writing-to-files: 250 in, 5000 refused, 500 out. *)
Lemma balance_is_fold_witness :
  (main WritingToFiles
     [ {| choice := 2; amount := 250 |}; {| choice := 3; amount := 5000 |};
       {| choice := 3; amount := 500 |} ] empty_world).1 = 750.
Proof.
  rewrite (balance_is_fold WritingToFiles) by reflexivity. reflexivity.
Defined.

Lemma exit_ends_session_witness :
  main Part007
    ([ {| choice := 2; amount := 250 |} ] ++ {| choice := 4; amount := 0 |}
       :: [ {| choice := 2; amount := 1000 |} ]) empty_world
  = main Part007 [ {| choice := 2; amount := 250 |} ] empty_world.
Proof.
  apply (exit_ends_session Part007); reflexivity.
Defined.

Lemma balance_survives_restart_witness :
  let rs := [ {| choice := 2; amount := 250 |} ] in
  initialBalance Part008 (main Part008 rs empty_world).2 = (main Part008 rs empty_world).1.
Proof.
  apply (balance_survives_restart Part008); [reflexivity | intros data | ]; reflexivity.
Defined.

Lemma refused_amount_changes_nothing_witness :
  let r := {| choice := 3; amount := 5000 |} in
  (infinite_loop_body r 1000 empty_world).1 = (Return, 1000) /\
  files (infinite_loop_body r 1000 empty_world).2 = files empty_world.
Proof.
  apply (refused_amount_changes_nothing InfiniteLoop); reflexivity.
Defined.

Lemma part006_exit_does_not_exit_witness :
  (part006_main [ {| choice := 4; amount := 0 |}; {| choice := 2; amount := 250 |} ]
     empty_world).1
  = (part006_main [ {| choice := 2; amount := 250 |} ] empty_world).1.
Proof.
  apply part006_exit_does_not_exit; [reflexivity | cbn; lia].
Defined.

End BankSessionFacts.

(** ** Properties of reading JSON back *)

Module JsonReadFacts.

Import JsonRead.

Lemma append_snoc (a b : string) (c : ascii) : snoc a c +:+ b = a +:+ String c b.
Proof.
  unfold snoc. induction a as [| x a IH]; [reflexivity |].
  change (String x ((a +:+ String c "") +:+ b) = String x (a +:+ String c b)).
  rewrite IH. reflexivity.
Qed.

Lemma append_empty (a : string) : a +:+ "" = a.
Proof.
  induction a as [| x a IH]; [reflexivity |].
  change (String x (a +:+ "") = String x a). rewrite IH. reflexivity.
Qed.

Lemma append_cons (c : ascii) (a b : string) : String c a +:+ b = String c (a +:+ b).
Proof. reflexivity. Qed.

Lemma append_nil (b : string) : "" +:+ b = b.
Proof. reflexivity. Qed.

Lemma literal_inv (v : string) :
  isStringLiteral v = true ->
  exists body, v = String dquote body /\ closes Plain body = true.
Proof.
  destruct v as [| c body]; [discriminate |]. cbn [isStringLiteral].
  intros [Hc Hb]%andb_prop. apply Ascii.eqb_eq in Hc. subst c. eauto.
Qed.

(** The scanner runs through a string literal to the state after a value. *)
Lemma scan_literal (q : strState) (s rest : string) (stack : list parseState) (n : nat) :
  closes q s = true ->
  scan (InString q, stack) n (s +:+ rest) =
    scan (EndValue, stack) (n + String.length s) rest.
Proof.
  revert q n. induction s as [| c s IH]; intros q n H; [discriminate |].
  cbn [closes] in H.
  change (String c s +:+ rest) with (String c (s +:+ rest)).
  cbn [scan step]. destruct (strStep q c) as [[q' |] | context]; try discriminate.
  - rewrite IH by exact H. f_equal. cbn [String.length]. lia.
  - destruct s; [| discriminate]. cbn [String.append String.length]. f_equal. lia.
Qed.

(** The splitter copies a string literal to the text it is reading. *)
Lemma split_literal (q : strState) (s rest : string) (sp : splitter) :
  closes q s = true -> inStr sp = Some q ->
  split sp (s +:+ rest) =
    split {| depth := depth sp; inStr := None; key := key sp; cur := cur sp +:+ s;
             inValue := inValue sp; done := done sp |} rest.
Proof.
  revert q sp. induction s as [| c s IH]; intros q sp H Hq; [discriminate |].
  cbn [closes] in H.
  change (String c s +:+ rest) with (String c (s +:+ rest)).
  cbn [split]. unfold split1 at 1. rewrite Hq.
  destruct (strStep q c) as [[q' |] | context]; try discriminate.
  - rewrite (IH q') by (exact H || reflexivity).
    cbn [depth inStr key cur inValue done]. rewrite append_snoc. reflexivity.
  - destruct s; [| discriminate]. cbn [String.append]. unfold snoc. reflexivity.
Qed.

Lemma scan_cons (st st' : scanState) (n : nat) (c : ascii) (s : string) :
  step st c = inl st' -> scan st n (String c s) = scan st' (S n) s.
Proof. intros H. cbn [scan]. rewrite H. reflexivity. Qed.

Lemma split_cons (sp : splitter) (c : ascii) (s : string) :
  split sp (String c s) = split (split1 sp c) s.
Proof. reflexivity. Qed.

Ltac scan_through :=
  repeat first
    [ rewrite append_cons
    | rewrite append_nil
    | rewrite scan_literal by assumption
    | erewrite scan_cons by reflexivity ].

Lemma flat3_valid (k1 v1 k2 v2 k3 v3 : string) :
  isStringLiteral k1 = true -> isStringLiteral v1 = true ->
  isStringLiteral k2 = true -> isStringLiteral v2 = true ->
  isStringLiteral k3 = true -> isStringLiteral v3 = true ->
  checkValid (flat3 k1 v1 k2 v2 k3 v3) = None.
Proof.
  intros (a1 & -> & H1)%literal_inv (b1 & -> & H2)%literal_inv
         (a2 & -> & H3)%literal_inv (b2 & -> & H4)%literal_inv
         (a3 & -> & H5)%literal_inv (b3 & -> & H6)%literal_inv.
  unfold checkValid, flat3. scan_through. reflexivity.
Qed.

Ltac split_through :=
  repeat first
    [ rewrite append_cons
    | rewrite append_nil
    | rewrite (split_literal Plain) by (assumption || reflexivity)
    | rewrite split_cons ].

Lemma flat3_members (k1 v1 k2 v2 k3 v3 : string) :
  isStringLiteral k1 = true -> isStringLiteral v1 = true ->
  isStringLiteral k2 = true -> isStringLiteral v2 = true ->
  isStringLiteral k3 = true -> isStringLiteral v3 = true ->
  members (flat3 k1 v1 k2 v2 k3 v3) = [(k1, v1); (k2, v2); (k3, v3)].
Proof.
  intros (a1 & -> & H1)%literal_inv (b1 & -> & H2)%literal_inv
         (a2 & -> & H3)%literal_inv (b2 & -> & H4)%literal_inv
         (a3 & -> & H5)%literal_inv (b3 & -> & H6)%literal_inv.
  unfold members, flat3. split_through. reflexivity.
Qed.

Section WithRuntime.

Context `{rt : GoRuntime} `{dec : Decoders}.

Lemma kindOf_literal (v : string) : isStringLiteral v = true -> kindOf v = KString.
Proof. intros (body & -> & _)%literal_inv. reflexivity. Qed.

Lemma storeString_literal (set : string -> Note.Note -> Note.Note) (name raw : string)
    (d : decoding) :
  isStringLiteral raw = true ->
  storeString set name raw d =
    {| target := set (unquote raw) (target d); savedError := savedError d; failed := None |}.
Proof. intros H. unfold storeString. rewrite (kindOf_literal raw H). reflexivity. Qed.

Lemma object3_flat3 (k1 v1 k2 v2 k3 v3 : string) :
  Note.object3 k1 v1 k2 v2 k3 v3 =
    flat3 (quote +:+ k1 +:+ quote) v1 (quote +:+ k2 +:+ quote) v2 (quote +:+ k3 +:+ quote) v3.
Proof.
  unfold Note.object3, flat3. rewrite !NoteFacts.append_assoc. reflexivity.
Qed.

(** Unmarshalling, into a Note of the same declaration, the text that
    [json.Marshal] gives for a Note whose fields survive their
    encoding gives that Note back, whatever the Note unmarshalled into
    held before. *)
Lemma Unmarshal_Marshal (v : Note.snippet) (note dest : Note.Note) (json : string) :
  survives (Note.Title note) -> survives (Note.Content note) ->
  timeSurvives (Note.CreatedAt note) ->
  Json.Marshal (Note.fields v note) = inl json ->
  Unmarshal v json dest = (note, None).
Proof.
  intros [L1 U1] [L2 U2] (created & Hm & L3 & U3) Hjson.
  destruct (NoteFacts.Marshal_Note note created Hm) as [Ht Hf].
  assert (Hshape : exists k1 k2 k3,
             json = flat3 (quote +:+ k1 +:+ quote) (json_string (Note.Title note))
                          (quote +:+ k2 +:+ quote) (json_string (Note.Content note))
                          (quote +:+ k3 +:+ quote) created /\
             isStringLiteral (quote +:+ k1 +:+ quote) = true /\
             isStringLiteral (quote +:+ k2 +:+ quote) = true /\
             isStringLiteral (quote +:+ k3 +:+ quote) = true /\
             fieldOf (map Json.key (Note.fields v Note.zero)) (unquote (quote +:+ k1 +:+ quote))
               = Some 0%nat /\
             fieldOf (map Json.key (Note.fields v Note.zero)) (unquote (quote +:+ k2 +:+ quote))
               = Some 1%nat /\
             fieldOf (map Json.key (Note.fields v Note.zero)) (unquote (quote +:+ k3 +:+ quote))
               = Some 2%nat).
  { destruct v.
    - exists "Title", "Content", "CreatedAt". rewrite Hf in Hjson. injection Hjson as <-.
      rewrite object3_flat3. repeat split; reflexivity.
    - exists "title", "content", "created_at". rewrite Ht in Hjson. injection Hjson as <-.
      rewrite object3_flat3. repeat split; reflexivity. }
  destruct Hshape as (k1 & k2 & k3 & -> & K1 & K2 & K3 & F1 & F2 & F3).
  assert (Hd : fold_left (storeMember v)
                 [(quote +:+ k1 +:+ quote, json_string (Note.Title note));
                  (quote +:+ k2 +:+ quote, json_string (Note.Content note));
                  (quote +:+ k3 +:+ quote, created)]
                 {| target := dest; savedError := None; failed := None |} =
               {| target := note; savedError := None; failed := None |}).
  { cbn [fold_left]. unfold storeMember at 3. cbn [failed fst snd]. rewrite F1.
    rewrite (storeString_literal _ _ _ _ L1).
    unfold storeMember at 2. cbn [failed fst snd]. rewrite F2.
    rewrite (storeString_literal _ _ _ _ L2).
    unfold storeMember at 1. cbn [failed fst snd]. rewrite F3.
    unfold storeTime. rewrite U3. cbn [target savedError failed].
    rewrite U1, U2. destruct note. reflexivity. }
  unfold Unmarshal.
  rewrite flat3_valid by assumption.
  replace (kindOf (skipSpace (flat3 _ _ _ _ _ _))) with KObject by reflexivity.
  rewrite flat3_members by assumption.
  cbv zeta. rewrite Hd. reflexivity.
Qed.

End WithRuntime.

End JsonReadFacts.

(** ** Writing and reading back *)

Module RoundTripFacts.

Import Bank Note JsonRead.
Local Open Scope float_scope.

Section WithRuntime.

Context `{rt : GoRuntime} `{dec : Decoders}.

(** [Load] reads what [Save] wrote. *)
Lemma Load_Save (v : snippet) (note : Note) (w : world) :
  survives (Title note) -> survives (Content note) -> timeSurvives (CreatedAt note) ->
  (Save v note w).1 = None ->
  Load v (fileNameOf (Title note)) (Save v note w).2 = ((note, None), (Save v note w).2).
Proof.
  intros Ht Hc Hd Hsave.
  destruct (Json.Marshal (fields v note)) as [json | err] eqn:Hjson.
  - revert Hsave. unfold Save, os_WriteFile. rewrite Hjson.
    destruct (disk w (fileNameOf (Title note)) json); cbn [fst snd]; try discriminate.
    intros _. unfold Load, os_ReadFile, mbind, IO_bind. cbn [files store].
    rewrite lookup_insert_eq.
    rewrite (JsonReadFacts.Unmarshal_Marshal v note zero json Ht Hc Hd Hjson).
    reflexivity.
  - revert Hsave. unfold Save. rewrite Hjson. discriminate.
Qed.


End WithRuntime.



End RoundTripFacts.

(** ** More on saving notes *)

Module NoteSaveFacts.

Import Strings Note.

Section WithRuntime.

Context `{rt : GoRuntime}.

Lemma fileNameOf_ASCII (title : string) :
  allBytes isASCII title = true -> fileNameOf title = derivedName title.
Proof.
  intros Hascii. unfold fileNameOf, derivedName, ToLower.
  rewrite NoteFacts.ReplaceAll_space, NoteFacts.underscore_ASCII by exact Hascii.
  rewrite NoteFacts.mapBytes_compose. reflexivity.
Qed.

Lemma Save_nil (v : snippet) (note : Note) (w : world) :
  (Save v note w).1 = None ->
  exists json, Json.Marshal (fields v note) = inl json /\
               (Save v note w).2 = store (fileNameOf (Title note)) json w.
Proof.
  unfold Save, os_WriteFile.
  destruct (Json.Marshal (fields v note)) as [json | err]; [| discriminate].
  destruct (disk w (fileNameOf (Title note)) json); try discriminate.
  intros _. exists json. split; reflexivity.
Qed.


End WithRuntime.

#[local] Existing Instance sample_runtime.


End NoteSaveFacts.

(** ** Properties of the profit calculator *)

Module ProfitFacts.

Import Profit.
Local Open Scope float_scope.

Lemma SFsub_diag (x : spec_float) :
  SFsub prec emax x x = S754_zero false \/ SFsub prec emax x x = S754_nan.
Proof.
  destruct x as [s | s | | s m e]; cbn [SFsub].
  - destruct s; auto.
  - destruct s; auto.
  - auto.
  - rewrite Z.sub_diag. left. reflexivity.
Qed.

Lemma SFmul_zero_l (s : bool) (y : spec_float) :
  (exists s', SFmul prec emax (S754_zero s) y = S754_zero s') \/
  SFmul prec emax (S754_zero s) y = S754_nan.
Proof. destruct y; cbn [SFmul]; eauto. Qed.

Lemma SFdiv_zero_zero (s s' : bool) :
  SFdiv prec emax (S754_zero s) (S754_zero s') = S754_nan.
Proof. reflexivity. Qed.

(** When revenue and expenses are equal, the ratio is NaN, whatever
    the tax rate: the earnings before tax are 0 (or NaN), so is the
    profit, and the ratio is 0/0. *)
Theorem break_even_ratio_is_NaN (amount taxRate : float) :
  (calculateFinancials amount amount taxRate).2 = nan.
Proof.
  unfold calculateFinancials. cbn [snd].
  apply Prim2SF_inj. rewrite div_spec, mul_spec, sub_spec.
  unfold SF64div, SF64mul, SF64sub.
  destruct (SFsub_diag (Prim2SF amount)) as [-> | ->]; [| reflexivity].
  destruct (SFmul_zero_l false (Prim2SF (1 - taxRate / 100))) as [[s' ->] | ->];
    reflexivity.
Qed.

(** With a tax rate of 100 and earnings before tax that are a finite
    number other than zero, the profit is zero and the ratio is +Inf. *)
Theorem full_tax_ratio_is_infinite (revenue expenses : float) (s : bool) (m : positive) (e : Z) :
  Prim2SF (revenue - expenses) = S754_finite s m e ->
  Prim2SF (calculateFinancials revenue expenses 100).1.2 = S754_zero s /\
  (calculateFinancials revenue expenses 100).2 = infinity.
Proof.
  intros H. unfold calculateFinancials. cbn [fst snd].
  assert (Hk : Prim2SF (1 - 100 / 100) = S754_zero false) by reflexivity.
  assert (Hp : Prim2SF ((revenue - expenses) * (1 - 100 / 100)) = S754_zero s).
  { rewrite mul_spec, H, Hk. unfold SF64mul. cbn [SFmul]. destruct s; reflexivity. }
  split; [exact Hp |].
  apply Prim2SF_inj. rewrite div_spec, Hp, H. unfold SF64div. cbn [SFdiv].
  destruct s; reflexivity.
Qed.

Section WithFormatting.

Context `{fmt : Formatting}.

Ltac run_io :=
  cbv beta iota zeta delta
    [mbind mret IO_bind IO_ret Println Print os_WriteFile store fst snd
     stdout files clock disk].


End WithFormatting.

#[local] Existing Instance sample_formatting.


(** Revenue 1000, expenses 400, tax rate 100. *)
Lemma full_tax_ratio_is_infinite_witness :
  (calculateFinancials 1000 400 100).2 = infinity.
Proof.
  exact (proj2 (full_tax_ratio_is_infinite 1000 400 false
                  5277655813324800%positive (-43)%Z eq_refl)).
Defined.

End ProfitFacts.

(** ** Properties of the note program *)

Module NoteAppFacts.

Import Note NoteApp.

Lemma length_append (a b : string) :
  String.length (a +:+ b) = (String.length a + String.length b)%nat.
Proof.
  induction a as [| c a IH]; [reflexivity |].
  change (S (String.length (a +:+ b)) = S (String.length a + String.length b)).
  rewrite IH. reflexivity.
Qed.

Lemma substring_prefix (a b : string) : substring 0 (String.length a) (a +:+ b) = a.
Proof.
  induction a as [| c a IH]; [destruct b; reflexivity |].
  change (String c (substring 0 (String.length a) (a +:+ b)) = String c a).
  rewrite IH. reflexivity.
Qed.

Lemma substring_suffix (a b : string) :
  substring (String.length a) (String.length b) (a +:+ b) = b.
Proof.
  induction a as [| c a IH].
  - change (substring 0 (String.length b) b = b).
    induction b as [| x b IHb]; [reflexivity |].
    change (String x (substring 0 (String.length b) b) = String x b).
    rewrite IHb. reflexivity.
  - exact IH.
Qed.

Lemma TrimSuffix_append (s suffix : string) : TrimSuffix (s +:+ suffix) suffix = s.
Proof.
  unfold TrimSuffix, HasSuffix. rewrite length_append.
  replace (String.length s + String.length suffix - String.length suffix)%nat
    with (String.length s) by lia.
  rewrite substring_suffix, String.eqb_refl, substring_prefix.
  replace (String.length suffix <=? String.length s + String.length suffix)%nat with true
    by (symmetry; apply Nat.leb_le; lia).
  reflexivity.
Qed.

Lemma TrimSuffix_no (s suffix : string) : HasSuffix s suffix = false -> TrimSuffix s suffix = s.
Proof. unfold TrimSuffix. intros ->. reflexivity. Qed.

Section WithRuntime.

Context `{rt : GoRuntime}.

(** A line typed at a terminal comes back without its line end, be it
    a newline or a carriage return and a newline; when the input ends
    before a newline, what was typed is dropped and the answer is the
    empty string. *)
Theorem getUserInput_line (prompt line partial : string) (e : error) (w : world) :
  HasSuffix line carriageReturn = false ->
  (getUserInput prompt (typed line false) w).1 = line /\
  (getUserInput prompt (typed line true) w).1 = line /\
  (getUserInput prompt (partial, Some e) w).1 = "".
Proof.
  intros Hcr. unfold getUserInput, typed, mbind, IO_bind.
  destruct (Print (prompt +:+ " ") w) as [u w1]. cbn [fst mret IO_ret].
  repeat split.
  - change (line +:+ "" +:+ newline) with (line +:+ ("" +:+ newline)).
    change ("" +:+ newline) with newline.
    rewrite TrimSuffix_append. apply TrimSuffix_no, Hcr.
  - replace (line +:+ carriageReturn +:+ newline)
      with ((line +:+ carriageReturn) +:+ newline)
      by apply NoteFacts.append_assoc.
    rewrite !TrimSuffix_append. reflexivity.
Qed.

Ltac run_io :=
  cbv beta iota zeta delta
    [mbind mret IO_bind IO_ret Println Print Display getNoteData getUserInput
     fst snd stdout files clock disk].

(** The program saves nothing when the title or the content it read
    is empty, and prints the error of [New].  Otherwise it shows the
    note and lets [Save] write it; it reports success exactly when
    [Save] returned nil, and failure otherwise. *)
Theorem main_reports (v : snippet) (read1 read2 : string * option error) (w : world) :
  let title := (getUserInput "Note title:" read1 w).1 in
  let content := (getUserInput "Note content:" read2 w).1 in
  let userNote := {| Title := title; Content := content; CreatedAt := clock w |} in
  (title = "" \/ content = "" ->
     stdout (main v read1 read2 w).2 = stdout w ++ prompts ++ ["Invalid input." +:+ newline] /\
     files (main v read1 read2 w).2 = files w) /\
  (title <> "" -> content <> "" ->
     files (main v read1 read2 w).2 = files (Save v userNote w).2 /\
     stdout (main v read1 read2 w).2 =
       stdout w ++ prompts ++
       [ displayed title content;
         (match (Save v userNote w).1 with
          | None => "Saving the note succeeded!"
          | Some _ => "Saving the note failed."
          end) +:+ newline ]).
Proof.
  cbv zeta. unfold main, prompts, displayed. run_io.
  destruct read1 as [text1 [e1 |]], read2 as [text2 [e2 |]]; cbn [fst snd];
    unfold New, time_Now; run_io.
  all: repeat match goal with
       | |- context [String.eqb ?s ""] => destruct (String.eqb_spec s "")
       end; cbn [orb]; run_io.
  all: split; [intros [H | H] | intros H1 H2]; try congruence.
  all: rewrite <- ?app_assoc; try (split; reflexivity).
  all: unfold Save, os_WriteFile;
       match goal with
       | |- context [Json.Marshal ?fs] => destruct (Json.Marshal fs) as [json | err]
       end; run_io; rewrite <- ?app_assoc; try (split; reflexivity).
  all: cbv beta iota zeta delta [disk];
       match goal with
       | |- context [match ?answer with WriteOk => _ | _ => _ end] => destruct answer
       end; cbn [fst snd files stdout store]; rewrite <- ?app_assoc; split; reflexivity.
Qed.

End WithRuntime.

#[local] Existing Instance sample_runtime.

Lemma getUserInput_line_witness :
  (getUserInput "Note title:" ("Shopping" +:+ carriageReturn +:+ newline, None) empty_world).1
  = "Shopping".
Proof.
  exact (proj1 (proj2 (getUserInput_line "Note title:" "Shopping" "" ErrNotExist empty_world
                         eq_refl))).
Defined.

(** A note typed at a terminal is saved; one whose content is cut off
    by the end of the input is not; one whose title has a slash fails
    to save where the directory does not exist. *)
Lemma main_reports_witness :
  dom (files (main StructTags (typed "Shopping" false) (typed "Buy milk" false)
                empty_world).2) = {[ "shopping.json" ]} /\
  files (main StructTags (typed "Shopping" false) ("Buy milk", Some ErrNotExist)
           empty_world).2 = ∅ /\
  last (stdout (main StructTags (typed "To Do/Today" false) (typed "Buy milk" false)
                  flat_world).2) = Some ("Saving the note failed." +:+ newline).
Proof.
  destruct (main_reports StructTags (typed "Shopping" false) (typed "Buy milk" false)
              empty_world) as [_ H1].
  destruct (main_reports StructTags (typed "Shopping" false) ("Buy milk", Some ErrNotExist)
              empty_world) as [H2 _].
  destruct (main_reports StructTags (typed "To Do/Today" false) (typed "Buy milk" false)
              flat_world) as [_ H3].
  split; [| split].
  - destruct H1 as [Hf _]; [discriminate | discriminate |]. rewrite Hf. vm_compute. reflexivity.
  - destruct H2 as [_ Hf]; [right; reflexivity |]. exact Hf.
  - destruct H3 as [_ Ho]; [discriminate | discriminate |]. rewrite Ho. reflexivity.
Defined.

End NoteAppFacts.
